(** * The SambaNova model adapter of the A2Agent demos

    A shallow embedding of [SambaAdapter.generate_content_async] as it is
    written in

      - [A2Agent/multi_tool_agent/agent.py] (the same method body, line for
        line, is in [A2Agent/2_tool_agent/tool_agent/agent.py]), and
      - [A2Agent/1_Basic_Agent/greeting_agent/agent.py] (the earlier variant,
        without tool declarations and without argument parsing).

    The method is an async generator that reads the request, builds the
    keyword arguments of one [chat.completions.create] call, performs the
    call, walks the returned object with [getattr] and yields one
    [LlmResponse].  Its effects (the vendor call, the log records, the
    yielded value, a raised exception) are modelled with a small
    state-and-exception monad over a [World] that also holds the request
    and the adapter object, so that writes to them would be visible.

    Modelling choices:
      - the objects of the request are the library's: [contents] is a
        list of turns; the parts of a turn, the declarations of a tool and
        the parameters of a declaration are a value or, by the library's
        defaults, [None]; the framework's [LlmRequest] has no [tools]
        attribute and a [types.Schema] has no [to_dict] method, while
        another object may have them, so both cases are in the model and
        reading what is not there raises [AttributeError];
      - an attribute of a vendor object that the method probes with
        [getattr]/[hasattr] is missing, [None] or a value ([attr]);
      - the client is a function from the keyword arguments of [create] to
        an exception or a completion object; every exception is a subclass
        of [Exception], so [except Exception] catches it;
      - [json.loads] is a parameter of the [multi_tool_agent] method
        ([string -> option json], [None] where it raises); [JsonLite] is
        an instance used to run the method on concrete responses;
      - [types.FunctionCall] validates [args] as [Optional[dict]]. *)

From Stdlib Require Import List String Ascii Bool Arith Lia.
Import ListNotations.
Open Scope string_scope.
Open Scope list_scope.
Set Warnings "-register-all".

(* ===================================================================== *)
(** ** Python values                                                      *)
(* ===================================================================== *)

(** The values [json.loads] can return; a number keeps its literal. *)
Inductive json : Type :=
| JNull
| JBool (b : bool)
| JNum (literal : string)
| JStr (s : string)
| JArr (items : list json)
| JObj (members : list (string * json)).

(** Exceptions (all of them subclasses of [Exception]). *)
Inductive Exn : Type :=
| ValueError (msg : string)
| IndexError (msg : string)
| TypeError (msg : string)
| JSONDecodeError (doc : string)
| ValidationError (model : string)
| AttributeError (msg : string)
| APIError (detail : string).

(** An attribute of a duck-typed object: not there at all, there and
    [None], or there with a value. *)
Inductive attr (A : Type) : Type :=
| Missing
| IsNone
| Have (a : A).
Arguments Missing {A}.
Arguments IsNone {A}.
Arguments Have {A} a.

(** [getattr(obj, name, default)]: the default is used only when the
    attribute is missing; a present [None] stays [None]. *)
Definition getattr {A : Type} (x : attr A) (default : option A) : option A :=
  match x with
  | Missing => default
  | IsNone => None
  | Have a => Some a
  end.

Definition hasattr {A : Type} (x : attr A) : bool :=
  match x with
  | Missing => false
  | _ => true
  end.

(** [x or []] for [x] a list or [None]. *)
Definition or_empty {A : Type} (x : option (list A)) : list A :=
  match x with
  | Some l => l
  | None => []
  end.

(** Truth value of a string or [None]. *)
Definition truthy_str (x : option string) : bool :=
  match x with
  | Some EmptyString => false
  | Some _ => true
  | None => false
  end.

(** Truth value of a list. *)
Definition truthy_list {A : Type} (l : list A) : bool :=
  match l with
  | [] => false
  | _ :: _ => true
  end.

(* ===================================================================== *)
(** ** The objects of the vendor's response                               *)
(* ===================================================================== *)

Record Function : Type := {
  fn_name : attr string;
  fn_arguments : attr string
}.

Record ToolCall : Type := {
  tc_function : attr Function
}.

Record ChatMessage : Type := {
  cm_content : attr string;
  cm_tool_calls : attr (list ToolCall)
}.

Record Choice : Type := {
  ch_message : attr ChatMessage
}.

Record ChatCompletion : Type := {
  cc_choices : attr (list Choice)
}.

(* ===================================================================== *)
(** ** The framework's types ([google.genai.types], [LlmRequest],
       [LlmResponse])                                                     *)
(* ===================================================================== *)

(** [types.FunctionCall]: [name : Optional[str]],
    [args : Optional[dict[str, Any]]]. *)
Record FunctionCall : Type := {
  fc_name : option string;
  fc_args : option (list (string * json))
}.

Record Part : Type := {
  text : option string;
  function_call : option FunctionCall
}.

(** [types.Content] as the method builds it for the response: the parts
    are the list it collected. *)
Record Content : Type := {
  role : option string;
  parts : list Part
}.

(** [types.Content] as it comes with the request, one turn of the
    conversation: [parts] is a list or, by the library's default, [None]. *)
Record Turn : Type := {
  turn_role : option string;
  turn_parts : option (list Part)
}.

Record LlmResponse : Type := {
  content : Content;
  partial : bool
}.

(** The object under [parameters] of a declaration: a [types.Schema],
    which has no [to_dict] method, or some other object that has one and
    returns the dictionary [d] from it. *)
Inductive Parameters : Type :=
| GenaiSchema (fields : json)
| WithToDict (d : json).

(** [parameters] is an object or, by the library's default, [None]. *)
Record FunctionDeclaration : Type := {
  fd_name : option string;
  fd_description : option string;
  fd_parameters : option Parameters
}.

(** [function_declarations] is a list or, by the library's default,
    [None]. *)
Record Tool : Type := {
  function_declarations : option (list FunctionDeclaration)
}.

(** The request object: [contents] is a list; a [tools] attribute is not
    part of the framework's [LlmRequest] class, so it is missing on a
    request of that class, and [None] or a list on an object that has
    one. *)
Record LlmRequest : Type := {
  contents : list Turn;
  tools : attr (list Tool)
}.

(* ===================================================================== *)
(** ** The vendor call                                                    *)
(* ===================================================================== *)

(** One entry of [messages]: [{"role": ..., "content": ...}]. *)
Record Message : Type := {
  msg_role : option string;
  msg_content : string
}.

(** One entry of [tools]:
    [{"type": "function", "function": {"name", "description", "parameters"}}]. *)
Record ApiFunction : Type := {
  af_name : option string;
  af_description : option string;
  af_parameters : json
}.

Record ApiTool : Type := {
  at_type : string;
  at_function : ApiFunction
}.

(** The keyword arguments of [chat.completions.create]; an argument that
    is not passed is [None]. *)
Record CreateArgs : Type := {
  ca_model : string;
  ca_messages : list Message;
  ca_tools : option (list ApiTool);
  ca_tool_choice : option string
}.

(** The client: what [self._client.chat.completions.create] does with its
    keyword arguments, a raised exception or the completion object. *)
Record SambaNova : Type := {
  chat_completions_create : CreateArgs -> Exn + ChatCompletion
}.

Record SambaAdapter : Type := {
  _model : string;
  _client : SambaNova
}.

(* ===================================================================== *)
(** ** Effects                                                            *)
(* ===================================================================== *)

Inductive Event : Type :=
| EvCreate (args : CreateArgs)             (* the vendor call is made *)
| EvLogException (msg : string) (e : Exn)  (* LOG.exception(msg) while handling e *)
| EvLogError (msg : string) (e : Exn)      (* LOG.error(msg + str(e)) *)
| EvYield (r : LlmResponse).               (* yield r *)

Record World : Type := {
  w_request : LlmRequest;
  w_self : SambaAdapter;
  w_trace : list Event
}.

Inductive Result (A : Type) : Type :=
| Ok (a : A)
| Raise (e : Exn).
Arguments Ok {A} a.
Arguments Raise {A} e.

Definition M (A : Type) : Type := World -> Result A * World.

Definition ret {A : Type} (a : A) : M A :=
  fun w => (Ok a, w).

Definition bind {A B : Type} (m : M A) (k : A -> M B) : M B :=
  fun w =>
    match m w with
    | (Ok a, w') => k a w'
    | (Raise e, w') => (Raise e, w')
    end.

Definition raise {A : Type} (e : Exn) : M A :=
  fun w => (Raise e, w).

(** [try: m  except Exception as e: h e]. *)
Definition try_except {A : Type} (m : M A) (h : Exn -> M A) : M A :=
  fun w =>
    match m w with
    | (Ok a, w') => (Ok a, w')
    | (Raise e, w') => h e w'
    end.

Declare Scope py_scope.
Delimit Scope py_scope with py.
Notation "x <- m ;; k" := (bind m (fun x => k))
  (at level 61, m at next level, right associativity) : py_scope.
Notation "m ;; k" := (bind m (fun _ => k))
  (at level 61, right associativity) : py_scope.
Open Scope py_scope.

Definition emit (ev : Event) : M unit :=
  fun w =>
    (Ok tt, {| w_request := w_request w;
               w_self := w_self w;
               w_trace := w_trace w ++ [ev] |}).

Definition get_request : M LlmRequest :=
  fun w => (Ok (w_request w), w).

Definition get_self : M SambaAdapter :=
  fun w => (Ok (w_self w), w).

(** [for x in xs: body], the loop's local variable threaded through. *)
Fixpoint for_each {A S : Type} (xs : list A) (body : A -> S -> M S) (s : S)
  : M S :=
  match xs with
  | [] => ret s
  | x :: xs' => s' <- body x s ;; for_each xs' body s'
  end.

Definition LOG_exception (msg : string) (e : Exn) : M unit :=
  emit (EvLogException msg e).

Definition LOG_error (msg : string) (e : Exn) : M unit :=
  emit (EvLogError msg e).

Definition yield (r : LlmResponse) : M unit :=
  emit (EvYield r).

(** [await asyncio.to_thread(f)] for an [f] that calls the client once. *)
Definition to_thread_create (client : SambaNova) (args : CreateArgs)
  : M ChatCompletion :=
  emit (EvCreate args) ;;
  match chat_completions_create client args with
  | inl e => raise e
  | inr completion => ret completion
  end.

(* ===================================================================== *)
(** ** Library calls the method makes                                     *)
(* ===================================================================== *)

(** [types.Part.from_text(text=t)] and [types.Part(text=t)]. *)
Definition Part_text (t : string) : Part :=
  {| text := Some t; function_call := None |}.

Definition Part_from_text (t : string) : M Part :=
  ret (Part_text t).

Definition Part_function_call (fc : FunctionCall) : Part :=
  {| text := None; function_call := Some fc |}.

(** [types.FunctionCall(name=n, args=a)]: the model validates [args]
    against [Optional[dict[str, Any]]]. *)
Definition FunctionCall_new (n : option string) (a : json) : M FunctionCall :=
  match a with
  | JObj members => ret {| fc_name := n; fc_args := Some members |}
  | JNull => ret {| fc_name := n; fc_args := None |}
  | _ => raise (ValidationError "FunctionCall")
  end.

(** [xs[0]] for [xs] a list or [None]. *)
Definition index0 {A : Type} (xs : option (list A)) : M A :=
  match xs with
  | Some (x :: _) => ret x
  | Some [] => raise (IndexError "list index out of range")
  | None => raise (TypeError "'NoneType' object is not subscriptable")
  end.

(** [for x in xs] for [xs] a list or [None]: the list iterated over. *)
Definition iterate {A : Type} (xs : option (list A)) : M (list A) :=
  match xs with
  | Some l => ret l
  | None => raise (TypeError "'NoneType' object is not iterable")
  end.

(** [llm_request.tools]. *)
Definition read_tools (llm_request : LlmRequest) : M (option (list Tool)) :=
  match tools llm_request with
  | Missing => raise (AttributeError "'LlmRequest' object has no attribute 'tools'")
  | IsNone => ret None
  | Have l => ret (Some l)
  end.

(** [p.to_dict()] for [p] the [parameters] of a declaration. *)
Definition to_dict (p : option Parameters) : M json :=
  match p with
  | None => raise (AttributeError "'NoneType' object has no attribute 'to_dict'")
  | Some (GenaiSchema _) =>
      raise (AttributeError "'Schema' object has no attribute 'to_dict'")
  | Some (WithToDict d) => ret d
  end.

(** The generator [part.text for part in c.parts if part.text] and its
    join on the empty separator. *)
Definition text_generator (ps : list Part) : list string :=
  flat_map (fun part =>
              if truthy_str (text part)
              then match text part with Some t => [t] | None => [] end
              else []) ps.

Definition join_parts (ps : list Part) : string :=
  String.concat EmptyString (text_generator ps).

(* ===================================================================== *)
(** ** multi_tool_agent/agent.py (and 2_tool_agent/tool_agent/agent.py)   *)
(* ===================================================================== *)

Module MultiToolAgent.

Section WithJson.

(** [json.loads] on a string: the parsed value, or [None] where it raises
    [JSONDecodeError]. *)
Variable json_loads : string -> option json.

(** [json.loads(x)] for [x] a string or [None]. *)
Definition json_loads_py (x : option string) : M json :=
  match x with
  | None =>
      raise (TypeError "the JSON object must be str, bytes or bytearray, not NoneType")
  | Some s =>
      match json_loads s with
      | Some v => ret v
      | None => raise (JSONDecodeError s)
      end
  end.

(** Lines 63-66. *)
Definition build_messages (cs : list Turn) : M (list Message) :=
  for_each cs
    (fun c messages =>
       c_parts <- iterate (turn_parts c) ;;
       let content_text := join_parts c_parts in
       ret (messages ++ [ {| msg_role := turn_role c; msg_content := content_text |} ]))
    [].

(** Lines 71-81: the body of [for tool in llm_request.tools]. *)
Definition tool_body (tool : Tool) (api_tools : list ApiTool) : M (list ApiTool) :=
  d_name <- index0 (function_declarations tool) ;;
  d_description <- index0 (function_declarations tool) ;;
  d_parameters <- index0 (function_declarations tool) ;;
  parameters <- to_dict (fd_parameters d_parameters) ;;
  ret (api_tools ++
         [ {| at_type := "function";
              at_function :=
                {| af_name := fd_name d_name;
                   af_description := fd_description d_description;
                   af_parameters := parameters |}
           |} ]).

(** Lines 69-81: [llm_request.tools] is read for the test and again for
    the loop. *)
Definition build_api_tools (llm_request : LlmRequest) : M (list ApiTool) :=
  let api_tools := [] in
  ts <- read_tools llm_request ;;
  if truthy_list (or_empty ts)
  then
    ts <- read_tools llm_request ;;
    ts <- iterate ts ;;
    for_each ts tool_body api_tools
  else ret api_tools.

(** Lines 84-98: the closure [call_samba], as the keyword arguments it
    passes to the client. *)
Definition call_samba (self : SambaAdapter) (messages : list Message)
           (api_tools : list ApiTool) : CreateArgs :=
  if truthy_list api_tools
  then {| ca_model := _model self;
          ca_messages := messages;
          ca_tools := Some api_tools;
          ca_tool_choice := Some "auto" |}
  else {| ca_model := _model self;
          ca_messages := messages;
          ca_tools := None;
          ca_tool_choice := None |}.

(** Lines 124-140: the body of [for tc in tool_calls]. *)
Definition tool_call_body (tc : ToolCall) (parts : list Part) : M (list Part) :=
  try_except
    (match getattr (tc_function tc) None with
     | Some function =>
         let fn_name := getattr (fn_name function) (Some EmptyString) in
         let fn_args_str := getattr (fn_arguments function) (Some "{}") in
         fn_args <- json_loads_py fn_args_str ;;
         fc <- FunctionCall_new fn_name fn_args ;;
         ret (parts ++ [Part_function_call fc])
     | None => ret parts
     end)
    (fun e =>
       LOG_error "Error parsing tool call: " e ;;
       ret parts).

(** Lines 108-140: the body of [for choice in ...]. *)
Definition choice_body (choice : Choice) (parts : list Part) : M (list Part) :=
  match getattr (ch_message choice) None with
  | None => ret parts
  | Some msg =>
      let content_text := getattr (cm_content msg) None in
      parts <- (if truthy_str content_text
                then
                  let t := match content_text with Some t => t | None => EmptyString end in
                  try_except
                    (p <- Part_from_text t ;; ret (parts ++ [p]))
                    (fun _ => ret (parts ++ [Part_text t]))
                else ret parts) ;;
      if hasattr (cm_tool_calls msg)
      then
        let tool_calls := or_empty (getattr (cm_tool_calls msg) (Some [])) in
        for_each tool_calls tool_call_body parts
      else ret parts
  end.

(** Lines 107-141. *)
Definition parse_completion (completion : ChatCompletion) : M (list Part) :=
  for_each (or_empty (getattr (cc_choices completion) (Some []))) choice_body [].

(** Lines 52-146. *)
Definition generate_content_async : M unit :=
  llm_request <- get_request ;;
  self <- get_self ;;
  if negb (truthy_list (contents llm_request))
  then raise (ValueError "LlmRequest must contain contents")
  else
    messages <- build_messages (contents llm_request) ;;
    api_tools <- build_api_tools llm_request ;;
    completion <-
      try_except
        (to_thread_create (_client self) (call_samba self messages api_tools))
        (fun e => LOG_exception "SambaNova call failed" e ;; raise e) ;;
    parts <- parse_completion completion ;;
    let llm_response :=
      {| content := {| role := Some "model"; parts := parts |};
         partial := false |} in
    yield llm_response.

End WithJson.

End MultiToolAgent.

(* ===================================================================== *)
(** ** 1_Basic_Agent/greeting_agent/agent.py                              *)
(* ===================================================================== *)

Module GreetingAgent.

(** Lines 53-56. *)
Definition build_messages (cs : list Turn) : M (list Message) :=
  for_each cs
    (fun c messages =>
       c_parts <- iterate (turn_parts c) ;;
       let content_text := join_parts c_parts in
       ret (messages ++ [ {| msg_role := turn_role c; msg_content := content_text |} ]))
    [].

(** Lines 59-63. *)
Definition call_samba (self : SambaAdapter) (messages : list Message)
  : CreateArgs :=
  {| ca_model := _model self;
     ca_messages := messages;
     ca_tools := None;
     ca_tool_choice := None |}.

(** The value of [getattr(function, "arguments", {})]: the attribute as
    it is (a string or [None]), or the empty dict when it is missing. *)
Definition arguments_or_empty_dict (x : attr string) : json :=
  match x with
  | Missing => JObj []
  | IsNone => JNull
  | Have s => JStr s
  end.

(** Lines 89-101: the body of [for tc in tool_calls]. *)
Definition tool_call_body (tc : ToolCall) (parts : list Part) : M (list Part) :=
  try_except
    (match getattr (tc_function tc) None with
     | Some function =>
         let fn_name := getattr (fn_name function) (Some EmptyString) in
         let fn_args := arguments_or_empty_dict (fn_arguments function) in
         fc <- FunctionCall_new fn_name fn_args ;;
         ret (parts ++ [Part_function_call fc])
     | None => ret parts
     end)
    (fun _ => ret parts).

(** Lines 73-101: the body of [for choice in ...]. *)
Definition choice_body (choice : Choice) (parts : list Part) : M (list Part) :=
  match getattr (ch_message choice) None with
  | None => ret parts
  | Some msg =>
      let content_text := getattr (cm_content msg) None in
      parts <- (if truthy_str content_text
                then
                  let t := match content_text with Some t => t | None => EmptyString end in
                  try_except
                    (p <- Part_from_text t ;; ret (parts ++ [p]))
                    (fun _ => ret (parts ++ [Part_text t]))
                else ret parts) ;;
      if hasattr (cm_tool_calls msg)
      then
        let tool_calls := or_empty (getattr (cm_tool_calls msg) (Some [])) in
        for_each tool_calls tool_call_body parts
      else ret parts
  end.

Definition parse_completion (completion : ChatCompletion) : M (list Part) :=
  for_each (or_empty (getattr (cc_choices completion) (Some []))) choice_body [].

(** Lines 42-107. *)
Definition generate_content_async : M unit :=
  llm_request <- get_request ;;
  self <- get_self ;;
  if negb (truthy_list (contents llm_request))
  then raise (ValueError "LlmRequest must contain contents")
  else
    messages <- build_messages (contents llm_request) ;;
    completion <-
      try_except
        (to_thread_create (_client self) (call_samba self messages))
        (fun e => LOG_exception "SambaNova call failed" e ;; raise e) ;;
    parts <- parse_completion completion ;;
    let llm_response :=
      {| content := {| role := Some "model"; parts := parts |};
         partial := false |} in
    yield llm_response.

End GreetingAgent.

(* ===================================================================== *)
(** ** Running the method and observing its effects                       *)
(* ===================================================================== *)

(** One invocation: the world holds the request and the adapter, and
    nothing has happened yet. *)
Definition initial (self : SambaAdapter) (llm_request : LlmRequest) : World :=
  {| w_request := llm_request; w_self := self; w_trace := [] |}.

Definition outcome {A : Type} (r : Result A * World) : Result A := fst r.
Definition final {A : Type} (r : Result A * World) : World := snd r.

Definition vendor_calls (tr : list Event) : list CreateArgs :=
  flat_map (fun ev => match ev with EvCreate a => [a] | _ => [] end) tr.

Definition yielded (tr : list Event) : list LlmResponse :=
  flat_map (fun ev => match ev with EvYield r => [r] | _ => [] end) tr.

Definition log_records (tr : list Event) : list Event :=
  filter (fun ev => match ev with
                    | EvLogException _ _ | EvLogError _ _ => true
                    | _ => false
                    end) tr.

(** The world after [evs] more events, its objects untouched. *)
Definition after (w : World) (evs : list Event) : World :=
  {| w_request := w_request w; w_self := w_self w; w_trace := w_trace w ++ evs |}.

(** A computation that returns [a] and only adds the events [evs]. *)
Definition returns {A : Type} (m : M A) (a : A) (evs : list Event) : Prop :=
  forall w, m w = (Ok a, after w evs).

(** A computation that raises [e] and only adds the events [evs]. *)
Definition raises {A : Type} (m : M A) (e : Exn) (evs : list Event) : Prop :=
  forall w, m w = (Raise e, after w evs).

(** A computation that leaves the request and the adapter as they were. *)
Definition preserves_objects {A : Type} (m : M A) : Prop :=
  forall w, w_request (snd (m w)) = w_request w /\ w_self (snd (m w)) = w_self w.

(* ===================================================================== *)
(** ** What the loops compute, written without the loops                  *)
(* ===================================================================== *)

(** The non-empty text fragments of a turn, in order. *)
Definition text_fragments (ps : list Part) : list string :=
  filter (fun t => negb (String.eqb t EmptyString))
         (flat_map (fun p => match text p with Some t => [t] | None => [] end) ps).

(** Concatenation with nothing in between. *)
Definition concat_all (ts : list string) : string :=
  fold_right String.append EmptyString ts.

(** A turn whose [parts] is a list. *)
Definition has_parts (c : Turn) : Prop :=
  turn_parts c <> None.

Definition all_have_parts (cs : list Turn) : bool :=
  forallb (fun c => match turn_parts c with Some _ => true | None => false end) cs.

(** The message of a turn: its role and its non-empty text fragments,
    concatenated. *)
Definition message_of (c : Turn) : Message :=
  {| msg_role := turn_role c;
     msg_content := concat_all (text_fragments (or_empty (turn_parts c))) |}.

(** What lines 63-66 give: the messages, or the exception of the first
    turn whose [parts] cannot be iterated. *)
Definition messages_of (cs : list Turn) : Exn + list Message :=
  if all_have_parts cs
  then inr (map message_of cs)
  else inl (TypeError "'NoneType' object is not iterable").

(** What lines 72-80 give for one tool: its entry, made from the first
    declaration, or the exception of the first step that fails. *)
Definition convert_tool (t : Tool) : Exn + ApiTool :=
  match function_declarations t with
  | None => inl (TypeError "'NoneType' object is not subscriptable")
  | Some [] => inl (IndexError "list index out of range")
  | Some (d :: _) =>
      match fd_parameters d with
      | None => inl (AttributeError "'NoneType' object has no attribute 'to_dict'")
      | Some (GenaiSchema _) =>
          inl (AttributeError "'Schema' object has no attribute 'to_dict'")
      | Some (WithToDict p) =>
          inr {| at_type := "function";
                 at_function := {| af_name := fd_name d;
                                   af_description := fd_description d;
                                   af_parameters := p |} |}
      end
  end.

(** The entries of a list of tools, or the exception of the first tool
    that fails. *)
Fixpoint convert_tools (ts : list Tool) : Exn + list ApiTool :=
  match ts with
  | [] => inr []
  | t :: ts' =>
      match convert_tool t with
      | inl e => inl e
      | inr entry =>
          match convert_tools ts' with
          | inl e => inl e
          | inr entries => inr (entry :: entries)
          end
      end
  end.

(** A tool that converts: it has a first declaration, whose parameters
    object has a [to_dict] method. *)
Definition convertible (t : Tool) : Prop :=
  exists d rest p,
    function_declarations t = Some (d :: rest) /\
    fd_parameters d = Some (WithToDict p).

(** A tool that does not convert, and the exception it leads to. *)
Definition conversion_fails_with (t : Tool) (e : Exn) : Prop :=
  (function_declarations t = None /\
   e = TypeError "'NoneType' object is not subscriptable") \/
  (function_declarations t = Some [] /\
   e = IndexError "list index out of range") \/
  (exists d rest,
      function_declarations t = Some (d :: rest) /\
      ((fd_parameters d = None /\
        e = AttributeError "'NoneType' object has no attribute 'to_dict'") \/
       (exists fields,
           fd_parameters d = Some (GenaiSchema fields) /\
           e = AttributeError "'Schema' object has no attribute 'to_dict'"))).

(** What lines 69-81 give for a request. *)
Definition api_tools_of (llm_request : LlmRequest) : Exn + list ApiTool :=
  match tools llm_request with
  | Missing => inl (AttributeError "'LlmRequest' object has no attribute 'tools'")
  | IsNone => inr []
  | Have ts => convert_tools ts
  end.

(** What [multi_tool_agent] has when it reaches the vendor call: the
    keyword arguments, or the exception raised on the way. *)
Definition prepared_args (self : SambaAdapter) (llm_request : LlmRequest)
  : Exn + CreateArgs :=
  match messages_of (contents llm_request) with
  | inl e => inl e
  | inr messages =>
      match api_tools_of llm_request with
      | inl e => inl e
      | inr api_tools => inr (MultiToolAgent.call_samba self messages api_tools)
      end
  end.

(** The keyword arguments [multi_tool_agent] passes for a request whose
    turns and tools convert. *)
Definition create_args_of (self : SambaAdapter) (llm_request : LlmRequest)
  : CreateArgs :=
  MultiToolAgent.call_samba self
    (map message_of (contents llm_request))
    (match api_tools_of llm_request with
     | inr api_tools => api_tools
     | inl _ => []
     end).

(** The choices, message and tool calls a response object carries. *)
Definition choices_of (completion : ChatCompletion) : list Choice :=
  match cc_choices completion with
  | Have l => l
  | _ => []
  end.

Definition message_of_choice (choice : Choice) : option ChatMessage :=
  match ch_message choice with
  | Have m => Some m
  | _ => None
  end.

Definition tool_calls_of (msg : ChatMessage) : list ToolCall :=
  match cm_tool_calls msg with
  | Have l => l
  | _ => []
  end.

(** The text part of a message: one exactly when the content is a
    non-empty string. *)
Definition text_parts_of (msg : ChatMessage) : list Part :=
  match cm_content msg with
  | Have t => if String.eqb t EmptyString then [] else [Part_text t]
  | _ => []
  end.

(** What one tool-call entry leads to in [multi_tool_agent]: a part, an
    exception caught and logged, or nothing at all (no function object). *)
Inductive entry_result : Type :=
| EntryPart (p : Part)
| EntryError (e : Exn)
| EntrySkipped.

Definition part_of_entry (r : entry_result) : list Part :=
  match r with
  | EntryPart p => [p]
  | _ => []
  end.

Definition log_of_entry (r : entry_result) : list Event :=
  match r with
  | EntryError e => [EvLogError "Error parsing tool call: " e]
  | _ => []
  end.

Section Declarative.

Variable json_loads : string -> option json.

(** The arguments a function object carries, decoded: the text is the
    attribute, or the two characters of an empty object when the
    attribute is missing. *)
Definition decoded_arguments (f : Function) : Exn + json :=
  match fn_arguments f with
  | IsNone =>
      inl (TypeError "the JSON object must be str, bytes or bytearray, not NoneType")
  | Missing =>
      match json_loads "{}" with
      | Some v => inr v
      | None => inl (JSONDecodeError "{}")
      end
  | Have s =>
      match json_loads s with
      | Some v => inr v
      | None => inl (JSONDecodeError s)
      end
  end.

Definition entry_name (f : Function) : option string :=
  match fn_name f with
  | Missing => Some EmptyString
  | IsNone => None
  | Have n => Some n
  end.

Definition result_of_entry (tc : ToolCall) : entry_result :=
  match tc_function tc with
  | Have f =>
      match decoded_arguments f with
      | inl e => EntryError e
      | inr (JObj members) =>
          EntryPart (Part_function_call
                       {| fc_name := entry_name f; fc_args := Some members |})
      | inr JNull =>
          EntryPart (Part_function_call
                       {| fc_name := entry_name f; fc_args := None |})
      | inr _ => EntryError (ValidationError "FunctionCall")
      end
  | _ => EntrySkipped
  end.

Definition function_call_parts (tcs : list ToolCall) : list Part :=
  flat_map (fun tc => part_of_entry (result_of_entry tc)) tcs.

Definition tool_call_logs (tcs : list ToolCall) : list Event :=
  flat_map (fun tc => log_of_entry (result_of_entry tc)) tcs.

Definition parts_of_choice (choice : Choice) : list Part :=
  match message_of_choice choice with
  | Some msg => text_parts_of msg ++ function_call_parts (tool_calls_of msg)
  | None => []
  end.

Definition logs_of_choice (choice : Choice) : list Event :=
  match message_of_choice choice with
  | Some msg => tool_call_logs (tool_calls_of msg)
  | None => []
  end.

Definition parts_of_completion (completion : ChatCompletion) : list Part :=
  flat_map parts_of_choice (choices_of completion).

Definition logs_of_completion (completion : ChatCompletion) : list Event :=
  flat_map logs_of_choice (choices_of completion).

Definition response_of (completion : ChatCompletion) : LlmResponse :=
  {| content := {| role := Some "model"; parts := parts_of_completion completion |};
     partial := false |}.

End Declarative.

(* ===================================================================== *)
(** ** A small JSON reader, to run the method on concrete responses       *)
(* ===================================================================== *)

(** The method is parametric in [json.loads].  For concrete runs the
    parameter is instantiated with this reader of a subset of JSON:
    objects, arrays, strings with the two-character escapes, numbers
    without exponent, [true], [false], [null], white space. *)
Module JsonLite.

Definition dquote : ascii := ascii_of_nat 34.
Definition backslash : ascii := ascii_of_nat 92.

Definition is_ws (c : ascii) : bool :=
  let n := nat_of_ascii c in
  Nat.eqb n 32 || Nat.eqb n 9 || Nat.eqb n 10 || Nat.eqb n 13.

Definition is_digit (c : ascii) : bool :=
  let n := nat_of_ascii c in
  Nat.leb 48 n && Nat.leb n 57.

Fixpoint skip_ws (cs : list ascii) : list ascii :=
  match cs with
  | c :: cs' => if is_ws c then skip_ws cs' else cs
  | [] => []
  end.

Fixpoint strip_prefix (p cs : list ascii) : option (list ascii) :=
  match p, cs with
  | [], _ => Some cs
  | a :: p', c :: cs' => if Ascii.eqb a c then strip_prefix p' cs' else None
  | _ :: _, [] => None
  end.

Definition unescape (c : ascii) : option ascii :=
  let n := nat_of_ascii c in
  if Nat.eqb n 34 then Some dquote
  else if Nat.eqb n 92 then Some backslash
  else if Nat.eqb n 47 then Some c
  else if Nat.eqb n 110 then Some (ascii_of_nat 10)
  else if Nat.eqb n 116 then Some (ascii_of_nat 9)
  else if Nat.eqb n 114 then Some (ascii_of_nat 13)
  else if Nat.eqb n 98 then Some (ascii_of_nat 8)
  else if Nat.eqb n 102 then Some (ascii_of_nat 12)
  else None.

(** After the opening quote: the characters up to the closing quote. *)
Fixpoint read_string (cs : list ascii) : option (string * list ascii) :=
  match cs with
  | [] => None
  | c :: rest =>
      if Ascii.eqb c dquote then Some (EmptyString, rest)
      else if Ascii.eqb c backslash then
        match rest with
        | e :: rest' =>
            match unescape e, read_string rest' with
            | Some c', Some (s, rest'') => Some (String c' s, rest'')
            | _, _ => None
            end
        | [] => None
        end
      else if Nat.ltb (nat_of_ascii c) 32 then None
      else
        match read_string rest with
        | Some (s, rest') => Some (String c s, rest')
        | None => None
        end
  end.

Fixpoint read_digits (cs : list ascii) : string * list ascii :=
  match cs with
  | c :: rest =>
      if is_digit c
      then let (s, rest') := read_digits rest in (String c s, rest')
      else (EmptyString, cs)
  | [] => (EmptyString, [])
  end.

(** [-]digits[.digits], with no leading zero before another digit. *)
Definition read_number (cs : list ascii) : option (string * list ascii) :=
  let (sign, cs1) :=
    match cs with
    | c :: rest => if Ascii.eqb c "-"%char then ("-", rest) else (EmptyString, cs)
    | [] => (EmptyString, cs)
    end in
  let (int_part, cs2) := read_digits cs1 in
  match int_part with
  | EmptyString => None
  | String d more =>
      if Ascii.eqb d "0"%char && negb (String.eqb more EmptyString) then None
      else
        match cs2 with
        | c :: rest =>
            if Ascii.eqb c "."%char
            then
              let (frac, cs3) := read_digits rest in
              match frac with
              | EmptyString => None
              | _ => Some (sign ++ int_part ++ "." ++ frac, cs3)%string
              end
            else Some (sign ++ int_part, cs2)%string
        | [] => Some (sign ++ int_part, cs2)%string
        end
  end.

Fixpoint read_value (fuel : nat) (cs : list ascii) : option (json * list ascii) :=
  match fuel with
  | 0 => None
  | S fuel' =>
      match skip_ws cs with
      | [] => None
      | c :: rest =>
          if Ascii.eqb c dquote then
            match read_string rest with
            | Some (s, rest') => Some (JStr s, rest')
            | None => None
            end
          else if Ascii.eqb c "{"%char then
            match skip_ws rest with
            | c' :: rest' =>
                if Ascii.eqb c' "}"%char then Some (JObj [], rest')
                else read_members fuel' (c' :: rest') []
            | [] => None
            end
          else if Ascii.eqb c "["%char then
            match skip_ws rest with
            | c' :: rest' =>
                if Ascii.eqb c' "]"%char then Some (JArr [], rest')
                else read_items fuel' (c' :: rest') []
            | [] => None
            end
          else
            match strip_prefix (list_ascii_of_string "null") (c :: rest),
                  strip_prefix (list_ascii_of_string "true") (c :: rest),
                  strip_prefix (list_ascii_of_string "false") (c :: rest) with
            | Some rest', _, _ => Some (JNull, rest')
            | _, Some rest', _ => Some (JBool true, rest')
            | _, _, Some rest' => Some (JBool false, rest')
            | None, None, None =>
                match read_number (c :: rest) with
                | Some (lit, rest') => Some (JNum lit, rest')
                | None => None
                end
            end
      end
  end
with read_items (fuel : nat) (cs : list ascii) (acc : list json)
     : option (json * list ascii) :=
  match fuel with
  | 0 => None
  | S fuel' =>
      match read_value fuel' cs with
      | Some (v, rest) =>
          match skip_ws rest with
          | c :: rest' =>
              if Ascii.eqb c ","%char then read_items fuel' rest' (acc ++ [v])
              else if Ascii.eqb c "]"%char then Some (JArr (acc ++ [v]), rest')
              else None
          | [] => None
          end
      | None => None
      end
  end
with read_members (fuel : nat) (cs : list ascii) (acc : list (string * json))
     : option (json * list ascii) :=
  match fuel with
  | 0 => None
  | S fuel' =>
      match skip_ws cs with
      | q :: rest =>
          if Ascii.eqb q dquote then
            match read_string rest with
            | Some (k, rest1) =>
                match skip_ws rest1 with
                | colon :: rest2 =>
                    if Ascii.eqb colon ":"%char then
                      match read_value fuel' rest2 with
                      | Some (v, rest3) =>
                          match skip_ws rest3 with
                          | c :: rest4 =>
                              if Ascii.eqb c ","%char
                              then read_members fuel' rest4 (acc ++ [(k, v)])
                              else if Ascii.eqb c "}"%char
                                   then Some (JObj (acc ++ [(k, v)]), rest4)
                                   else None
                          | [] => None
                          end
                      | None => None
                      end
                    else None
                | [] => None
                end
            | None => None
            end
          else None
      | [] => None
      end
  end.

Definition json_loads (s : string) : option json :=
  let cs := list_ascii_of_string s in
  match read_value (2 * List.length cs + 2) cs with
  | Some (v, rest) =>
      match skip_ws rest with
      | [] => Some v
      | _ :: _ => None
      end
  | None => None
  end.

(** A string between double quotes. *)
Definition quoted (s : string) : string :=
  (String dquote s ++ String dquote EmptyString)%string.

End JsonLite.

(* ===================================================================== *)
(** ** Concrete objects for running the method                            *)
(* ===================================================================== *)

Module Sample.

Import JsonLite.

(** A client whose [create] answers every call with [r]. *)
Definition client_answering (r : Exn + ChatCompletion) : SambaNova :=
  {| chat_completions_create := fun _ => r |}.

Definition adapter (r : Exn + ChatCompletion) : SambaAdapter :=
  {| _model := "Meta-Llama-3.3-70B-Instruct"; _client := client_answering r |}.

Definition text_part (t : string) : Part := Part_text t.

Definition user_turn : Turn :=
  {| turn_role := Some "user";
     turn_parts := Some [text_part "What is ";
                         {| text := None; function_call := None |};
                         text_part EmptyString; text_part "the weather?"] |}.

Definition empty_turn : Turn :=
  {| turn_role := Some "model"; turn_parts := Some [] |}.

(** [types.Content(role="user")]: no parts were given. *)
Definition bare_turn : Turn :=
  {| turn_role := Some "user"; turn_parts := None |}.

(** Declarations whose parameters object has a [to_dict] method. *)
Definition get_weather_declaration : FunctionDeclaration :=
  {| fd_name := Some "get_weather";
     fd_description := Some "Retrieves the current weather report for a specified city.";
     fd_parameters := Some (WithToDict (JObj [("type", JStr "object")])) |}.

Definition get_current_time_declaration : FunctionDeclaration :=
  {| fd_name := Some "get_current_time";
     fd_description := Some "Returns the current time in a specified city.";
     fd_parameters := Some (WithToDict (JObj [("type", JStr "object")])) |}.

Definition weather_tool : Tool :=
  {| function_declarations :=
       Some [get_weather_declaration; get_current_time_declaration] |}.

(** A tool of the library: its parameters are a [types.Schema]. *)
Definition genai_weather_tool : Tool :=
  {| function_declarations :=
       Some [ {| fd_name := Some "get_weather";
                 fd_description := Some "Retrieves the current weather report for a specified city.";
                 fd_parameters := Some (GenaiSchema (JObj [("type", JStr "OBJECT")])) |} ] |}.

(** Request objects that carry a [tools] attribute. *)
Definition request_with_tool : LlmRequest :=
  {| contents := [user_turn; empty_turn]; tools := Have [weather_tool] |}.

Definition request_without_tools : LlmRequest :=
  {| contents := [user_turn]; tools := IsNone |}.

Definition empty_request : LlmRequest :=
  {| contents := []; tools := Have [weather_tool] |}.

Definition request_with_genai_tool : LlmRequest :=
  {| contents := [user_turn]; tools := Have [genai_weather_tool] |}.

(** A request of the framework's [LlmRequest] class: no [tools]
    attribute. *)
Definition adk_request : LlmRequest :=
  {| contents := [user_turn]; tools := Missing |}.

(** A request one of whose turns has no parts. *)
Definition request_with_bare_turn : LlmRequest :=
  {| contents := [user_turn; bare_turn]; tools := IsNone |}.

Definition city_arguments : string :=
  ("{" ++ quoted "city" ++ ":" ++ quoted "NY" ++ "}")%string.

Definition tool_call (n : string) (a : attr string) : ToolCall :=
  {| tc_function := Have {| fn_name := Have n; fn_arguments := a |} |}.

(** One choice: the text "Hello", a call with valid arguments, a call
    with malformed arguments, a call without an arguments field. *)
Definition completion : ChatCompletion :=
  {| cc_choices :=
       Have [ {| ch_message :=
                   Have {| cm_content := Have "Hello";
                           cm_tool_calls :=
                             Have [tool_call "get_weather" (Have city_arguments);
                                   tool_call "get_weather" (Have "{bad");
                                   tool_call "get_current_time" Missing] |} |};
              {| ch_message := IsNone |} ] |}.

(** One choice with two calls, one valid and one malformed. *)
Definition two_calls : ChatCompletion :=
  {| cc_choices :=
       Have [ {| ch_message :=
                   Have {| cm_content := IsNone;
                           cm_tool_calls :=
                             Have [tool_call "get_weather" (Have city_arguments);
                                   tool_call "get_weather" (Have "{bad")] |} |} ] |}.

Definition weather_call_part : Part :=
  Part_function_call {| fc_name := Some "get_weather";
                        fc_args := Some [("city", JStr "NY")] |}.

End Sample.

(* ===================================================================== *)
(** ** What [greeting_agent] computes, written without the loops          *)
(* ===================================================================== *)

(** The part a tool-call entry leads to in [greeting_agent]: one when the
    function object has no arguments attribute (the default, an empty
    dict) or has [None] for it; none when the attribute is a string, or
    when there is no function object. *)
Definition greeting_part_of_entry (tc : ToolCall) : list Part :=
  match tc_function tc with
  | Have f =>
      match fn_arguments f with
      | Missing =>
          [Part_function_call {| fc_name := entry_name f; fc_args := Some [] |}]
      | IsNone =>
          [Part_function_call {| fc_name := entry_name f; fc_args := None |}]
      | Have _ => []
      end
  | _ => []
  end.

Definition greeting_parts_of_choice (choice : Choice) : list Part :=
  match message_of_choice choice with
  | Some msg => text_parts_of msg ++ flat_map greeting_part_of_entry (tool_calls_of msg)
  | None => []
  end.

Definition greeting_parts_of_completion (completion : ChatCompletion) : list Part :=
  flat_map greeting_parts_of_choice (choices_of completion).

Definition greeting_response_of (completion : ChatCompletion) : LlmResponse :=
  {| content := {| role := Some "model";
                   parts := greeting_parts_of_completion completion |};
     partial := false |}.

(** The keyword arguments [greeting_agent] passes for a request. *)
Definition greeting_create_args_of (self : SambaAdapter) (llm_request : LlmRequest)
  : CreateArgs :=
  GreetingAgent.call_samba self (map message_of (contents llm_request)).

(** A part that carries text. *)
Definition is_text_part (p : Part) : bool :=
  match text p with
  | Some _ => true
  | None => false
  end.

(** A response none of whose messages carries a tool-call entry. *)
Definition without_tool_calls (completion : ChatCompletion) : Prop :=
  forall choice msg,
    In choice (choices_of completion) ->
    message_of_choice choice = Some msg ->
    tool_calls_of msg = [].

(** The entries of a list that have a function object. *)
Definition has_function (tc : ToolCall) : bool :=
  match tc_function tc with
  | Have _ => true
  | _ => false
  end.

(* ===================================================================== *)
(** ** String operations of the scheduler demo                            *)
(* ===================================================================== *)

Module Str.

Definition nl : string := String (ascii_of_nat 10) EmptyString.

(** [needle in hay]. *)
Fixpoint str_in (needle hay : string) : bool :=
  String.prefix needle hay ||
  match hay with
  | String _ rest => str_in needle rest
  | EmptyString => false
  end.

(** [s.lower()], exact on ASCII text: the letters A to Z are lowered, every
    other byte is kept. *)
Definition lower_ascii (c : ascii) : ascii :=
  let n := nat_of_ascii c in
  if Nat.leb 65 n && Nat.leb n 90 then ascii_of_nat (n + 32) else c.

Fixpoint lower (s : string) : string :=
  match s with
  | EmptyString => EmptyString
  | String c rest => String (lower_ascii c) (lower rest)
  end.

(** [s.split(':')[0]]: the text before the first colon, all of [s] when it
    has none. *)
Fixpoint before_colon (s : string) : string :=
  match s with
  | EmptyString => EmptyString
  | String c rest =>
      if Ascii.eqb c ":"%char then EmptyString else String c (before_colon rest)
  end.

(** [t.startswith(p)]. *)
Definition startswith (t p : string) : bool := String.prefix p t.

(** [repr] of a string without quotes, backslashes or control characters,
    and of a list of such strings. *)
Definition repr_str (s : string) : string := ("'" ++ s ++ "'")%string.

Definition repr_list (l : list string) : string :=
  ("[" ++ String.concat ", " (map repr_str l) ++ "]")%string.

End Str.

(* ===================================================================== *)
(** ** pickleball_scheduler/tools.py                                      *)
(* ===================================================================== *)

Module PickleballTools.

Import Str.

(** Lines 19-23; a dict iterates in insertion order. *)
Definition mock_courts : list (string * list string) :=
  [ ("court_1", ["15:00"; "16:00"; "17:00"; "18:00"]);
    ("court_2", ["16:30"; "17:30"; "18:30"]);
    ("court_3", ["15:00"; "18:00"]) ].

(** Line 29: [start_time is None or t.startswith(start_time.split(':')[0])]. *)
Definition slot_wanted (start_time : option string) (t : string) : bool :=
  match start_time with
  | None => true
  | Some st => startswith t (before_colon st)
  end.

Definition slot_line (court t : string) : string :=
  ("  - Court ID: " ++ court ++ " at " ++ t)%string.

(** Lines 26-30: the two nested loops, appending to [available_slots]. *)
Definition collect_slots (start_time : option string) : list string :=
  fold_left
    (fun available_slots (entry : string * list string) =>
       let (court, times) := entry in
       fold_left
         (fun available_slots t =>
            if slot_wanted start_time t
            then available_slots ++ [slot_line court t]
            else available_slots)
         times available_slots)
    mock_courts [].

(** [start_time or 'any time'] and [str(start_time)]. *)
Definition or_any_time (start_time : option string) : string :=
  match start_time with
  | Some (String c s) => String c s
  | _ => "any time"
  end.

Definition format_opt (start_time : option string) : string :=
  match start_time with
  | Some s => s
  | None => "None"
  end.

(** Lines 5-35: the lines printed and the string returned. *)
Definition list_courts_availability (date : string) (start_time : option string)
  : list string * string :=
  let printed :=
    ("[*] Tool: Checking court availability for " ++ date ++ " around "
       ++ or_any_time start_time ++ "...")%string in
  let available_slots := collect_slots start_time in
  if negb (truthy_list available_slots)
  then ([printed],
        ("No courts are available on " ++ date ++ " around "
           ++ format_opt start_time ++ ".")%string)
  else ([printed],
        ("Available courts on " ++ date ++ ":" ++ nl
           ++ String.concat nl available_slots)%string).

(** The mock slots as (court, time) pairs, in the order of the loops. *)
Definition all_slots : list (string * string) :=
  flat_map (fun entry : string * list string =>
              map (fun t => (fst entry, t)) (snd entry)) mock_courts.

(** The slots a start time selects. *)
Definition selected (start_time : option string) : list (string * string) :=
  filter (fun slot => slot_wanted start_time (snd slot)) all_slots.

End PickleballTools.

(* ===================================================================== *)
(** ** pickleball_scheduler/host_agent.py                                 *)
(* ===================================================================== *)

Module PickleballHost.

Import Str.

(** The dict built for an agent card: name, description, url. *)
Record AgentInfo : Type := {
  info_name : string;
  info_description : string;
  info_url : string
}.

(** [self.agents]: a dict from agent name to agent card, in insertion
    order. *)
Definition AgentsDict : Type := list (string * AgentInfo).

(** [d[k] = v]: the value of an existing key is replaced where the key is,
    a new key goes to the end. *)
Fixpoint dict_set (k : string) (v : AgentInfo) (d : AgentsDict) : AgentsDict :=
  match d with
  | [] => [(k, v)]
  | (k', v') :: rest =>
      if String.eqb k' k then (k, v) :: rest else (k', v') :: dict_set k v rest
  end.

(** [k in d]. *)
Definition dict_has (k : string) (d : AgentsDict) : bool :=
  existsb (fun kv => String.eqb (fst kv) k) d.

Definition dict_get (k : string) (d : AgentsDict) : option AgentInfo :=
  match find (fun kv => String.eqb (fst kv) k) d with
  | Some kv => Some (snd kv)
  | None => None
  end.

Definition keys (d : AgentsDict) : list string := map fst d.

(** The fields of the host the methods read and write. *)
Record Host : Type := {
  remote_urls : list string;
  agents : AgentsDict
}.

(** Lines 47-66: the card chosen for a URL, if any. *)
Definition agent_info_for (url : string) : option AgentInfo :=
  if str_in "8001" url then
    Some {| info_name := "Alice_LangGraph";
            info_description :=
              "An agent to check Alice's availability. Responds with her free time slots.";
            info_url := url |}
  else if str_in "8002" url then
    Some {| info_name := "Bob_CrewAI";
            info_description :=
              "An agent to check Bob's availability. Knows his preferred days.";
            info_url := url |}
  else if str_in "8003" url then
    Some {| info_name := "Charlie_ADK";
            info_description :=
              "An agent for Charlie's schedule. Can confirm or deny invitations.";
            info_url := url |}
  else None.

(** Lines 43-70: the body of [for url in self.remote_urls], on the agents
    dict and the printed lines. *)
Definition register_url (st : AgentsDict * list string) (url : string)
  : AgentsDict * list string :=
  let (agents, out) := st in
  match agent_info_for url with
  | None => (agents, out)
  | Some agent_info =>
      let agent_name := info_name agent_info in
      (dict_set agent_name agent_info agents,
       out ++ [("  - Registered remote agent: " ++ agent_name ++ " at " ++ url)%string])
  end.

(** Lines 36-70. *)
Definition _prepare_remote_agents (self : Host) (out : list string)
  : Host * list string :=
  let out := out ++ ["Preparing connections to remote agents..."] in
  let (agents', out') :=
    fold_left register_url (remote_urls self) (agents self, out) in
  ({| remote_urls := remote_urls self; agents := agents' |}, out').

Definition dq : string := String (ascii_of_nat 34) EmptyString.

(** Lines 81-89. *)
Definition core_instructions : string :=
  (nl ++ "You are a master pickleball scheduler. Your goal is to find a time that works for a group of friends, check court availability, and book a court."
      ++ nl ++ nl
      ++ "To do this, you must first communicate with each friend's personal AI agent to determine their availability. Use the `send_message_to_friend` tool for this. You can ask them open-ended questions like "
      ++ dq ++ "Are you free on Friday evening?" ++ dq ++ "."
      ++ nl ++ nl
      ++ "Once you have availabilities, use the `list_courts_availability` tool."
      ++ nl ++ nl
      ++ "Finally, after confirming a time with everyone, use the `book_court` tool to make the reservation. Be sure to include all player names in the booking."
      ++ nl)%string.

Definition agent_line (kv : string * AgentInfo) : string :=
  ("- **" ++ fst kv ++ "**: " ++ info_description (snd kv) ++ nl)%string.

(** Lines 76-98. *)
Definition _build_system_prompt (self : Host) : string :=
  let agents_available_prompt := (nl ++ "AGENTS AVAILABLE:" ++ nl)%string in
  let agents_available_prompt :=
    if negb (truthy_list (agents self))
    then (agents_available_prompt ++ "No remote agents are currently connected." ++ nl)%string
    else fold_left (fun p kv => (p ++ agent_line kv)%string)
                   (agents self) agents_available_prompt in
  (core_instructions ++ agents_available_prompt)%string.

Definition alice_reply : string :=
  "Response from Alice_LangGraph: 'Friday sounds great! I'm free after 5 PM.'".

Definition bob_reply : string :=
  "Response from Bob_CrewAI: 'I can do Friday at 6 PM or any time Saturday.'".

Definition acknowledgement (friend_name message : string) : string :=
  ("Response from " ++ friend_name
     ++ ": 'Acknowledged. I will check my schedule for: " ++ message ++ "'")%string.

Definition unknown_agent_error (self : Host) (friend_name : string) : string :=
  ("Error: No agent found with the name '" ++ friend_name
     ++ "'. Available agents are: " ++ repr_list (keys (agents self)))%string.

(** Lines 100-135: the lines printed and the string returned. *)
Definition send_message_to_friend (self : Host) (friend_name message : string)
  : list string * string :=
  let out :=
    [("[*] Host Agent: Attempting to send message to '" ++ friend_name
        ++ "': '" ++ message ++ "'")%string] in
  if negb (dict_has friend_name (agents self))
  then (out, unknown_agent_error self friend_name)
  else
    let out :=
      out ++ [("  - Connection to " ++ friend_name ++ " established (simulated).")%string] in
    if str_in "friday" (lower message) && str_in "alice" (lower friend_name)
    then (out, alice_reply)
    else if str_in "bob" (lower friend_name)
         then (out, bob_reply)
         else (out, acknowledgement friend_name message).

(** The agent object: its instructions and the names of its tools. *)
Record Agent : Type := {
  instructions : string;
  agent_tools : list string
}.

(** Lines 138-162. *)
Definition _create_adk_agent (self : Host) (out : list string)
  : Agent * list string :=
  let out := out ++ [(nl ++ "Building ADK Agent...")%string] in
  let system_prompt := _build_system_prompt self in
  let agent :=
    {| instructions := system_prompt;
       agent_tools := ["list_courts_availability"; "book_court";
                       "send_message_to_friend"] |} in
  (agent,
   out ++ ["  - System prompt configured.";
           "  - Tools registered: list_courts_availability, book_court, send_message_to_friend"]).

(** Lines 15-34: [PickleballHostAgent(remote_agent_urls)]: the host, its
    agent and the lines printed. *)
Definition __init__ (remote_agent_urls : list string)
  : Host * Agent * list string :=
  let self := {| remote_urls := remote_agent_urls; agents := [] |} in
  let out := ["Host Agent Initializing..."] in
  let (self, out) := _prepare_remote_agents self out in
  let (adk_agent, out) := _create_adk_agent self out in
  (self, adk_agent,
   out ++ [(nl ++ "Host Agent Ready. You can now start the conversation.")%string]).

(** The three names a URL can be registered under. *)
Definition known_names : list string :=
  ["Alice_LangGraph"; "Bob_CrewAI"; "Charlie_ADK"].

(** A URL with none of the three port markers. *)
Definition unmarked (url : string) : Prop :=
  str_in "8001" url = false /\ str_in "8002" url = false /\ str_in "8003" url = false.

(** The name a URL is registered under, if any. *)
Definition name_for (url : string) : option string :=
  match agent_info_for url with
  | Some agent_info => Some (info_name agent_info)
  | None => None
  end.

(** The host, the agent and the printed lines of a construction. *)
Definition host_of (remote_agent_urls : list string) : Host :=
  fst (fst (__init__ remote_agent_urls)).

Definition agent_of (remote_agent_urls : list string) : Agent :=
  snd (fst (__init__ remote_agent_urls)).

Definition printed_by (remote_agent_urls : list string) : list string :=
  snd (__init__ remote_agent_urls).

(** The header of the agent list in the system prompt. *)
Definition agents_header : string :=
  (nl ++ "AGENTS AVAILABLE:" ++ nl)%string.

End PickleballHost.

(* ===================================================================== *)
(** ** Reasoning about the monad                                          *)
(* ===================================================================== *)

Lemma after_nil (w : World) : after w [] = w.
Proof.
  destruct w as [rq sf tr]. unfold after. simpl. now rewrite app_nil_r.
Qed.

Lemma after_after (w : World) (e1 e2 : list Event) :
  after (after w e1) e2 = after w (e1 ++ e2).
Proof.
  unfold after. simpl. now rewrite app_assoc.
Qed.

Lemma returns_ret {A : Type} (a : A) : returns (ret a) a [].
Proof.
  intros w. unfold ret. now rewrite after_nil.
Qed.

Lemma raises_raise {A : Type} (e : Exn) : raises (@raise A e) e [].
Proof.
  intros w. unfold raise. now rewrite after_nil.
Qed.

Lemma returns_emit (ev : Event) : returns (emit ev) tt [ev].
Proof.
  intros w. reflexivity.
Qed.

Lemma returns_bind {A B : Type} (m : M A) (k : A -> M B) a b e1 e2 :
  returns m a e1 -> returns (k a) b e2 -> returns (bind m k) b (e1 ++ e2).
Proof.
  intros Hm Hk w. unfold bind. rewrite Hm, Hk. now rewrite after_after.
Qed.

Lemma raises_bind {A B : Type} (m : M A) (k : A -> M B) e evs :
  raises m e evs -> raises (bind m k) e evs.
Proof.
  intros Hm w. unfold bind. now rewrite Hm.
Qed.

Lemma returns_bind_raises {A B : Type} (m : M A) (k : A -> M B) a e e1 e2 :
  returns m a e1 -> raises (k a) e e2 -> raises (bind m k) e (e1 ++ e2).
Proof.
  intros Hm Hk w. unfold bind. rewrite Hm, Hk. now rewrite after_after.
Qed.

Lemma returns_try {A : Type} (m : M A) (h : Exn -> M A) a evs :
  returns m a evs -> returns (try_except m h) a evs.
Proof.
  intros Hm w. unfold try_except. now rewrite Hm.
Qed.

Lemma returns_try_handled {A : Type} (m : M A) (h : Exn -> M A) e a e1 e2 :
  raises m e e1 -> returns (h e) a e2 -> returns (try_except m h) a (e1 ++ e2).
Proof.
  intros Hm Hh w. unfold try_except. rewrite Hm, Hh. now rewrite after_after.
Qed.

Lemma raises_try_reraised {A : Type} (m : M A) (h : Exn -> M A) e e' e1 e2 :
  raises m e e1 -> raises (h e) e' e2 -> raises (try_except m h) e' (e1 ++ e2).
Proof.
  intros Hm Hh w. unfold try_except. rewrite Hm, Hh. now rewrite after_after.
Qed.

(** A loop whose body always returns: the local variable is folded and
    the events are appended, in order. *)
Lemma returns_for_each {A S : Type} (body : A -> S -> M S)
      (step : A -> S -> S) (evs : A -> list Event) :
  (forall x s, returns (body x s) (step x s) (evs x)) ->
  forall xs s,
    returns (for_each xs body s)
            (fold_left (fun s x => step x s) xs s)
            (flat_map evs xs).
Proof.
  intros Hbody xs. induction xs as [|x xs IH]; intros s; simpl.
  - apply returns_ret.
  - eapply returns_bind; [apply Hbody | apply IH].
Qed.

Lemma fold_left_append {A B : Type} (f : A -> list B) (xs : list A) (acc : list B) :
  fold_left (fun s x => s ++ f x) xs acc = acc ++ flat_map f xs.
Proof.
  revert acc. induction xs as [|x xs IH]; intros acc; simpl.
  - now rewrite app_nil_r.
  - rewrite IH. now rewrite app_assoc.
Qed.

(** Frame lemmas: the request and the adapter are never written. *)
Lemma preserves_ret {A : Type} (a : A) : preserves_objects (ret a).
Proof. intros w. now split. Qed.

Lemma preserves_raise {A : Type} (e : Exn) : preserves_objects (@raise A e).
Proof. intros w. now split. Qed.

Lemma preserves_emit (ev : Event) : preserves_objects (emit ev).
Proof. intros w. now split. Qed.

Lemma preserves_get_request : preserves_objects get_request.
Proof. intros w. now split. Qed.

Lemma preserves_get_self : preserves_objects get_self.
Proof. intros w. now split. Qed.

Lemma preserves_bind {A B : Type} (m : M A) (k : A -> M B) :
  preserves_objects m -> (forall a, preserves_objects (k a)) ->
  preserves_objects (bind m k).
Proof.
  intros Hm Hk w. unfold bind.
  specialize (Hm w). destruct (m w) as [[a|e] w']; simpl in *.
  - destruct (Hk a w') as [H1 H2]. destruct Hm as [H3 H4].
    split; congruence.
  - exact Hm.
Qed.

Lemma preserves_try {A : Type} (m : M A) (h : Exn -> M A) :
  preserves_objects m -> (forall e, preserves_objects (h e)) ->
  preserves_objects (try_except m h).
Proof.
  intros Hm Hh w. unfold try_except.
  specialize (Hm w). destruct (m w) as [[a|e] w']; simpl in *.
  - exact Hm.
  - destruct (Hh e w') as [H1 H2]. destruct Hm as [H3 H4].
    split; congruence.
Qed.

Lemma preserves_for_each {A S : Type} (body : A -> S -> M S) :
  (forall x s, preserves_objects (body x s)) ->
  forall xs s, preserves_objects (for_each xs body s).
Proof.
  intros Hbody xs. induction xs as [|x xs IH]; intros s; simpl.
  - apply preserves_ret.
  - apply preserves_bind; [apply Hbody | intros s'; apply IH].
Qed.

Lemma preserves_to_thread_create (client : SambaNova) (args : CreateArgs) :
  preserves_objects (to_thread_create client args).
Proof.
  unfold to_thread_create. apply preserves_bind.
  - apply preserves_emit.
  - intros _. destruct (chat_completions_create client args).
    + apply preserves_raise.
    + apply preserves_ret.
Qed.

Lemma preserves_FunctionCall_new (n : option string) (a : json) :
  preserves_objects (FunctionCall_new n a).
Proof.
  destruct a; simpl; try apply preserves_raise; apply preserves_ret.
Qed.

Lemma preserves_index0 {A : Type} (xs : option (list A)) :
  preserves_objects (index0 xs).
Proof.
  destruct xs as [[|x xs]|]; simpl;
    [apply preserves_raise | apply preserves_ret | apply preserves_raise].
Qed.

Lemma preserves_iterate {A : Type} (xs : option (list A)) :
  preserves_objects (iterate xs).
Proof.
  destruct xs; simpl; [apply preserves_ret | apply preserves_raise].
Qed.

Lemma preserves_read_tools (llm_request : LlmRequest) :
  preserves_objects (read_tools llm_request).
Proof.
  unfold read_tools. destruct (tools llm_request);
    [apply preserves_raise | apply preserves_ret | apply preserves_ret].
Qed.

Lemma preserves_to_dict (p : option Parameters) : preserves_objects (to_dict p).
Proof.
  destruct p as [[]|]; simpl;
    [apply preserves_raise | apply preserves_ret | apply preserves_raise].
Qed.

(* ===================================================================== *)
(** ** The message list                                                   *)
(* ===================================================================== *)

Lemma append_empty_r (s : string) : (s ++ EmptyString)%string = s.
Proof.
  induction s as [|c s IH]; simpl; [reflexivity | now rewrite IH].
Qed.

Lemma concat_empty_separator (ts : list string) :
  String.concat EmptyString ts = concat_all ts.
Proof.
  induction ts as [|t ts IH]; simpl; [reflexivity|].
  destruct ts as [|t' ts'].
  - simpl. now rewrite append_empty_r.
  - rewrite IH. reflexivity.
Qed.

Lemma text_generator_fragments (ps : list Part) :
  text_generator ps = text_fragments ps.
Proof.
  unfold text_generator, text_fragments.
  induction ps as [|p ps IH]; simpl; [reflexivity|].
  rewrite filter_app, <- IH.
  destruct (text p) as [[|c t]|]; reflexivity.
Qed.

Lemma join_parts_spec (ps : list Part) :
  join_parts ps = concat_all (text_fragments ps).
Proof.
  unfold join_parts. now rewrite concat_empty_separator, text_generator_fragments.
Qed.

Lemma message_loop (cs : list Turn) (acc : list Message) :
  let loop :=
    for_each cs
      (fun c messages =>
         c_parts <- iterate (turn_parts c) ;;
         let content_text := join_parts c_parts in
         ret (messages ++ [ {| msg_role := turn_role c; msg_content := content_text |} ]))
      acc in
  if all_have_parts cs
  then returns loop (acc ++ map message_of cs) []
  else raises loop (TypeError "'NoneType' object is not iterable") [].
Proof.
  revert acc. induction cs as [|c cs IH]; intros acc; simpl.
  - rewrite app_nil_r. apply returns_ret.
  - destruct (turn_parts c) as [ps|] eqn:Ep; simpl.
    + specialize (IH (acc ++ [message_of c])). simpl in IH.
      unfold message_of in IH. rewrite Ep in IH. simpl in IH.
      rewrite <- join_parts_spec in IH.
      destruct (all_have_parts cs).
      * rewrite <- app_assoc in IH. simpl in IH.
        unfold message_of at 1. rewrite Ep. simpl. rewrite <- join_parts_spec.
        intros w. exact (IH w).
      * intros w. exact (IH w).
    + apply raises_bind. apply raises_raise.
Qed.

Lemma build_messages_cases (cs : list Turn) :
  match messages_of cs with
  | inr messages => returns (MultiToolAgent.build_messages cs) messages []
  | inl e => raises (MultiToolAgent.build_messages cs) e []
  end.
Proof.
  unfold messages_of. pose proof (message_loop cs []) as H. simpl in H.
  destruct (all_have_parts cs); exact H.
Qed.

Lemma greeting_build_messages_cases (cs : list Turn) :
  match messages_of cs with
  | inr messages => returns (GreetingAgent.build_messages cs) messages []
  | inl e => raises (GreetingAgent.build_messages cs) e []
  end.
Proof.
  unfold messages_of. pose proof (message_loop cs []) as H. simpl in H.
  destruct (all_have_parts cs); exact H.
Qed.

Lemma all_have_parts_Forall (cs : list Turn) :
  all_have_parts cs = true <-> Forall has_parts cs.
Proof.
  unfold all_have_parts. rewrite forallb_forall, Forall_forall.
  split; intros H c Hc; specialize (H c Hc); unfold has_parts in *;
    destruct (turn_parts c); congruence.
Qed.

Lemma messages_of_with_parts (cs : list Turn) :
  Forall has_parts cs -> messages_of cs = inr (map message_of cs).
Proof.
  intros H. apply all_have_parts_Forall in H. unfold messages_of. now rewrite H.
Qed.

(* ===================================================================== *)
(** ** The tool list                                                      *)
(* ===================================================================== *)

Lemma tool_body_cases (t : Tool) (acc : list ApiTool) :
  match convert_tool t with
  | inr entry => returns (MultiToolAgent.tool_body t acc) (acc ++ [entry]) []
  | inl e => raises (MultiToolAgent.tool_body t acc) e []
  end.
Proof.
  unfold convert_tool, MultiToolAgent.tool_body.
  destruct (function_declarations t) as [[|d rest]|]; simpl.
  - apply raises_bind. apply raises_raise.
  - destruct (fd_parameters d) as [[fields|p]|] eqn:Ep; simpl;
      intros w; cbn; rewrite Ep; cbn; now rewrite after_nil.
  - apply raises_bind. apply raises_raise.
Qed.

Lemma tools_loop (ts : list Tool) (acc : list ApiTool) :
  match convert_tools ts with
  | inr entries => returns (for_each ts MultiToolAgent.tool_body acc) (acc ++ entries) []
  | inl e => raises (for_each ts MultiToolAgent.tool_body acc) e []
  end.
Proof.
  revert acc. induction ts as [|t ts IH]; intros acc; simpl.
  - rewrite app_nil_r. apply returns_ret.
  - pose proof (tool_body_cases t acc) as Ht.
    destruct (convert_tool t) as [e|entry].
    + now apply raises_bind.
    + specialize (IH (acc ++ [entry])).
      destruct (convert_tools ts) as [e|entries].
      * change (@nil Event) with (@nil Event ++ @nil Event).
        eapply returns_bind_raises; [exact Ht | exact IH].
      * change (@nil Event) with (@nil Event ++ @nil Event).
        rewrite <- app_assoc in IH.
        eapply returns_bind; [exact Ht | exact IH].
Qed.

Lemma build_api_tools_cases (llm_request : LlmRequest) :
  match api_tools_of llm_request with
  | inr entries => returns (MultiToolAgent.build_api_tools llm_request) entries []
  | inl e => raises (MultiToolAgent.build_api_tools llm_request) e []
  end.
Proof.
  unfold api_tools_of, MultiToolAgent.build_api_tools, read_tools.
  destruct (tools llm_request) as [| |[|t ts]].
  - apply raises_bind. apply raises_raise.
  - intros w. cbn. now rewrite after_nil.
  - intros w. cbn. now rewrite after_nil.
  - pose proof (tools_loop (t :: ts) []) as H.
    destruct (convert_tools (t :: ts)) as [e|entries];
      intros w; exact (H w).
Qed.

(* ===================================================================== *)
(** ** Walking the response ([multi_tool_agent])                          *)
(* ===================================================================== *)

Section Walk.

Variable json_loads : string -> option json.

Lemma tool_call_body_returns (tc : ToolCall) (parts : list Part) :
  returns (MultiToolAgent.tool_call_body json_loads tc parts)
          (parts ++ part_of_entry (result_of_entry json_loads tc))
          (log_of_entry (result_of_entry json_loads tc)).
Proof.
  destruct tc as [[| |[nm ar]]];
    unfold MultiToolAgent.tool_call_body, result_of_entry, decoded_arguments;
    simpl.
  - intros w. cbn. now rewrite after_nil, app_nil_r.
  - intros w. cbn. now rewrite after_nil, app_nil_r.
  - destruct ar as [| |s]; simpl.
    + destruct (json_loads "{}") as [[]|]; intros w; cbn;
        rewrite ?after_nil, ?app_nil_r; destruct nm; reflexivity.
    + intros w. cbn. now rewrite app_nil_r.
    + destruct (json_loads s) as [[]|]; intros w; cbn;
        rewrite ?after_nil, ?app_nil_r; destruct nm; reflexivity.
Qed.

Lemma tool_calls_loop_returns (tcs : list ToolCall) (parts : list Part) :
  returns (for_each tcs (MultiToolAgent.tool_call_body json_loads) parts)
          (parts ++ function_call_parts json_loads tcs)
          (tool_call_logs json_loads tcs).
Proof.
  unfold function_call_parts, tool_call_logs.
  rewrite <- fold_left_append.
  apply (returns_for_each
           (MultiToolAgent.tool_call_body json_loads)
           (fun tc s => s ++ part_of_entry (result_of_entry json_loads tc))
           (fun tc => log_of_entry (result_of_entry json_loads tc))).
  intros tc s. apply tool_call_body_returns.
Qed.

Lemma choice_body_returns (choice : Choice) (parts : list Part) :
  returns (MultiToolAgent.choice_body json_loads choice parts)
          (parts ++ parts_of_choice json_loads choice)
          (logs_of_choice json_loads choice).
Proof.
  destruct choice as [[| |[ct tcs]]];
    unfold MultiToolAgent.choice_body, parts_of_choice, logs_of_choice,
           message_of_choice, text_parts_of, tool_calls_of; simpl.
  - rewrite app_nil_r. apply returns_ret.
  - rewrite app_nil_r. apply returns_ret.
  - assert (Htext :
             returns
               (if truthy_str (getattr ct None)
                then
                  try_except
                    (p <- Part_from_text
                            match getattr ct None with
                            | Some t => t
                            | None => EmptyString
                            end ;;
                     ret (parts ++ [p]))
                    (fun _ =>
                       ret (parts ++
                              [Part_text match getattr ct None with
                                         | Some t => t
                                         | None => EmptyString
                                         end]))
                else ret parts)
               (parts ++ match ct with
                         | Have t => if String.eqb t EmptyString then []
                                     else [Part_text t]
                         | _ => []
                         end) []).
    { destruct ct as [| |[|c t]]; simpl;
        try (rewrite app_nil_r; apply returns_ret).
      intros w. cbn. now rewrite after_nil. }
    destruct tcs as [| |l]; simpl.
    + rewrite app_nil_r.
      change (@nil Event) with (@nil Event ++ @nil Event).
      eapply returns_bind; [exact Htext | apply returns_ret].
    + rewrite app_nil_r.
      change (@nil Event) with (@nil Event ++ @nil Event).
      eapply returns_bind; [exact Htext | apply returns_ret].
    + rewrite app_assoc.
      change (tool_call_logs json_loads l)
        with ([] ++ tool_call_logs json_loads l).
      eapply returns_bind; [exact Htext | apply tool_calls_loop_returns].
Qed.

Lemma parse_completion_returns (completion : ChatCompletion) :
  returns (MultiToolAgent.parse_completion json_loads completion)
          (parts_of_completion json_loads completion)
          (logs_of_completion json_loads completion).
Proof.
  unfold MultiToolAgent.parse_completion, parts_of_completion, logs_of_completion.
  replace (or_empty (getattr (cc_choices completion) (Some [])))
    with (choices_of completion)
    by (unfold choices_of; destruct (cc_choices completion); reflexivity).
  change (flat_map (parts_of_choice json_loads) (choices_of completion))
    with ([] ++ flat_map (parts_of_choice json_loads) (choices_of completion)).
  rewrite <- fold_left_append.
  apply (returns_for_each
           (MultiToolAgent.choice_body json_loads)
           (fun c s => s ++ parts_of_choice json_loads c)
           (logs_of_choice json_loads)).
  intros c s. apply choice_body_returns.
Qed.

(** Every path of the method, as one equation. *)
Lemma generate_content_async_paths (self : SambaAdapter) (llm_request : LlmRequest) :
  let w := initial self llm_request in
  MultiToolAgent.generate_content_async json_loads w =
    match contents llm_request with
    | [] => (Raise (ValueError "LlmRequest must contain contents"), w)
    | _ :: _ =>
        match prepared_args self llm_request with
        | inl e => (Raise e, w)
        | inr args =>
            match chat_completions_create (_client self) args with
            | inl e =>
                (Raise e,
                 after w [EvCreate args; EvLogException "SambaNova call failed" e])
            | inr completion =>
                (Ok tt,
                 after w ([EvCreate args]
                            ++ logs_of_completion json_loads completion
                            ++ [EvYield (response_of json_loads completion)]))
            end
        end
    end.
Proof.
  intros w.
  unfold MultiToolAgent.generate_content_async.
  unfold bind at 1. unfold get_request at 1. unfold bind at 1.
  unfold get_self at 1. subst w. cbn [initial w_request w_self].
  destruct (contents llm_request) as [|c cs] eqn:Ec.
  - reflexivity.
  - cbn [truthy_list negb].
    unfold prepared_args. rewrite Ec.
    unfold bind at 1.
    pose proof (build_messages_cases (c :: cs)) as Hm.
    destruct (messages_of (c :: cs)) as [e|messages].
    { now rewrite Hm, after_nil. }
    rewrite Hm, after_nil.
    unfold bind at 1.
    pose proof (build_api_tools_cases llm_request) as Ht.
    destruct (api_tools_of llm_request) as [e|api_tools].
    { now rewrite Ht, after_nil. }
    rewrite Ht, after_nil.
    set (args := MultiToolAgent.call_samba self _ _).
    unfold bind at 1. unfold try_except, to_thread_create.
    unfold bind at 1. cbn [emit].
    destruct (chat_completions_create (_client self) args) as [e|completion].
    + reflexivity.
    + cbn [ret]. unfold bind at 1.
      rewrite parse_completion_returns. unfold yield.
      rewrite returns_emit. rewrite !after_after.
      unfold after; cbn. reflexivity.
Qed.

End Walk.

(* ===================================================================== *)
(** ** Observations of a trace                                            *)
(* ===================================================================== *)

Section Observations.

Variable json_loads : string -> option json.

Lemma tool_call_logs_are_errors (tcs : list ToolCall) :
  Forall (fun ev => exists e, ev = EvLogError "Error parsing tool call: " e)
         (tool_call_logs json_loads tcs).
Proof.
  unfold tool_call_logs. induction tcs as [|tc tcs IH]; simpl; [constructor|].
  apply Forall_app. split; [|exact IH].
  destruct (result_of_entry json_loads tc); simpl; repeat constructor.
  now exists e.
Qed.

Lemma logs_of_completion_are_errors (completion : ChatCompletion) :
  Forall (fun ev => exists e, ev = EvLogError "Error parsing tool call: " e)
         (logs_of_completion json_loads completion).
Proof.
  unfold logs_of_completion.
  induction (choices_of completion) as [|c cs IH]; simpl; [constructor|].
  apply Forall_app. split; [|exact IH].
  unfold logs_of_choice. destruct (message_of_choice c); [|constructor].
  apply tool_call_logs_are_errors.
Qed.

Lemma error_logs_observed (l : list Event) :
  Forall (fun ev => exists e, ev = EvLogError "Error parsing tool call: " e) l ->
  vendor_calls l = [] /\ yielded l = [] /\ log_records l = l.
Proof.
  induction 1 as [|ev l [e He] Hl (IH1 & IH2 & IH3)]; simpl; [now repeat split|].
  subst ev. simpl. rewrite IH1, IH2, IH3. now repeat split.
Qed.

Lemma vendor_calls_app (a b : list Event) :
  vendor_calls (a ++ b) = vendor_calls a ++ vendor_calls b.
Proof. apply flat_map_app. Qed.

Lemma yielded_app (a b : list Event) :
  yielded (a ++ b) = yielded a ++ yielded b.
Proof. apply flat_map_app. Qed.

Lemma log_records_app (a b : list Event) :
  log_records (a ++ b) = log_records a ++ log_records b.
Proof. apply filter_app. Qed.

(** The trace of a run that got a completion back. *)
Lemma success_trace_observed (args : CreateArgs) (completion : ChatCompletion) :
  let tr := [EvCreate args] ++ logs_of_completion json_loads completion
              ++ [EvYield (response_of json_loads completion)] in
  vendor_calls tr = [args] /\
  yielded tr = [response_of json_loads completion] /\
  log_records tr = logs_of_completion json_loads completion.
Proof.
  intros tr. subst tr.
  destruct (error_logs_observed _ (logs_of_completion_are_errors completion))
    as (H1 & H2 & H3).
  rewrite !vendor_calls_app, !yielded_app, !log_records_app, H1, H2, H3.
  simpl. rewrite app_nil_r. now repeat split.
Qed.

(** A vendor call in the trace of a run is the one call the method makes,
    with the keyword arguments built from the request. *)
Lemma created_args (self : SambaAdapter) (llm_request : LlmRequest)
      (args : CreateArgs) :
  In (EvCreate args)
     (w_trace (final (MultiToolAgent.generate_content_async json_loads
                        (initial self llm_request)))) ->
  contents llm_request <> [] /\
  prepared_args self llm_request = inr args.
Proof.
  rewrite generate_content_async_paths.
  destruct (contents llm_request) as [|c cs] eqn:Ec; [intros []|].
  destruct (prepared_args self llm_request) as [e|args']; [intros []|].
  destruct (chat_completions_create (_client self) args') as [e|completion];
    unfold final, after; cbn [snd w_trace initial app In]; intros Hin.
  - destruct Hin as [H|[H|[]]]; [|discriminate H].
    injection H as <-. now split.
  - destruct Hin as [H|Hin].
    + injection H as <-. now split.
    + apply in_app_or in Hin. destruct Hin as [Hin|[H|[]]]; [|discriminate H].
      pose proof (logs_of_completion_are_errors completion) as Hf.
      rewrite Forall_forall in Hf. destruct (Hf _ Hin) as [e He]. discriminate He.
Qed.

(** Function-call parts carry no text. *)
Lemma function_call_parts_have_no_text (tcs : list ToolCall) (p : Part) :
  In p (function_call_parts json_loads tcs) ->
  text p = None /\ function_call p <> None.
Proof.
  unfold function_call_parts. rewrite in_flat_map. intros (tc & _ & Hp).
  unfold result_of_entry in Hp.
  destruct (tc_function tc) as [| |f]; simpl in Hp; try contradiction.
  destruct (decoded_arguments json_loads f) as [e|[]]; simpl in Hp;
    try contradiction; destruct Hp as [<-|[]]; simpl; split;
    try reflexivity; discriminate.
Qed.

End Observations.

(* ===================================================================== *)
(** ** The claims                                                         *)
(* ===================================================================== *)

(** C1 (as amended).  For a request with a non-empty turn sequence each of
    whose turns has a parts sequence, the message loop of
    [generate_content_async] returns a list as long as the turn sequence;
    its i-th message has the role of the i-th turn and, as content, the
    non-empty text fragments of that turn concatenated in order with
    nothing in between, which is the empty string for a turn without text
    fragments.  Whenever the conversion of the tools that follows returns,
    the method makes its one vendor call with exactly this list as
    messages. *)
Theorem C1_flattened_messages
        (json_loads : string -> option json)
        (self : SambaAdapter) (llm_request : LlmRequest) :
  contents llm_request <> [] ->
  Forall has_parts (contents llm_request) ->
  exists messages,
    MultiToolAgent.build_messages (contents llm_request) (initial self llm_request)
      = (Ok messages, initial self llm_request) /\
    List.length messages = List.length (contents llm_request) /\
    (forall i c ps,
        nth_error (contents llm_request) i = Some c ->
        turn_parts c = Some ps ->
        exists m,
          nth_error messages i = Some m /\
          msg_role m = turn_role c /\
          msg_content m = concat_all (text_fragments ps) /\
          (text_fragments ps = [] -> msg_content m = EmptyString)) /\
    (forall api_tools,
        MultiToolAgent.build_api_tools llm_request (initial self llm_request)
          = (Ok api_tools, initial self llm_request) ->
        exists args,
          vendor_calls
            (w_trace (final (MultiToolAgent.generate_content_async json_loads
                               (initial self llm_request)))) = [args] /\
          ca_messages args = messages).
Proof.
  intros Hne Hparts. exists (map message_of (contents llm_request)).
  pose proof (messages_of_with_parts _ Hparts) as Hm.
  split; [|split; [|split]].
  - pose proof (build_messages_cases (contents llm_request)) as H.
    rewrite Hm in H. rewrite H. now rewrite after_nil.
  - apply length_map.
  - intros i c ps Hc Hps. exists (message_of c).
    unfold message_of. rewrite Hps. simpl.
    split; [|split; [|split]]; try reflexivity.
    + apply (map_nth_error message_of) in Hc.
      unfold message_of in Hc at 2. now rewrite Hps in Hc.
    + now intros ->.
  - intros api_tools Htools.
    pose proof (build_api_tools_cases llm_request) as Ht.
    destruct (api_tools_of llm_request) as [e|entries] eqn:Ea.
    { rewrite Ht in Htools. discriminate Htools. }
    rewrite Ht in Htools. injection Htools as <-.
    exists (MultiToolAgent.call_samba self
              (map message_of (contents llm_request)) entries).
    split.
    + rewrite generate_content_async_paths.
      destruct (contents llm_request) as [|c cs] eqn:Ec; [congruence|].
      unfold prepared_args. rewrite Ec, Hm, Ea.
      destruct (chat_completions_create _ _) as [e|completion].
      * reflexivity.
      * unfold final, after. cbn [snd w_trace initial].
        now destruct (success_trace_observed json_loads
                        (MultiToolAgent.call_samba self
                           (map message_of (c :: cs)) entries)
                        completion) as (H1 & _).
    + unfold MultiToolAgent.call_samba. destruct (truthy_list entries); reflexivity.
Qed.

Lemma C1_flattened_messages_witness :
  contents Sample.request_with_tool <> [] /\
  Forall has_parts (contents Sample.request_with_tool) /\
  exists args,
    vendor_calls
      (w_trace (final (MultiToolAgent.generate_content_async JsonLite.json_loads
                         (initial (Sample.adapter (inr Sample.completion))
                                  Sample.request_with_tool)))) = [args] /\
    ca_messages args
    = [ {| msg_role := Some "user"; msg_content := "What is the weather?" |};
        {| msg_role := Some "model"; msg_content := EmptyString |} ].
Proof.
  assert (Hne : contents Sample.request_with_tool <> []) by discriminate.
  assert (Hp : Forall has_parts (contents Sample.request_with_tool))
    by (repeat constructor; discriminate).
  split; [exact Hne|]. split; [exact Hp|].
  destruct (C1_flattened_messages JsonLite.json_loads
              (Sample.adapter (inr Sample.completion)) Sample.request_with_tool
              Hne Hp)
    as (messages & Hrun & _ & _ & Hcall).
  vm_compute in Hrun. injection Hrun as <-.
  destruct (Hcall _ eq_refl) as (args & Hcalls & Hmsgs).
  exists args. split; [exact Hcalls | exact Hmsgs].
Defined.

(** C1, the claim as it was stated, fails on a request one of whose turns
    has no parts: the message loop raises [TypeError], no message list
    comes out of it, and the method ends there without a vendor call. *)
Lemma C1_turn_without_parts_counterexample :
  contents Sample.request_with_bare_turn <> [] /\
  (~ exists messages,
       MultiToolAgent.build_messages (contents Sample.request_with_bare_turn)
         (initial (Sample.adapter (inr Sample.completion))
                  Sample.request_with_bare_turn)
       = (Ok messages,
          initial (Sample.adapter (inr Sample.completion))
                  Sample.request_with_bare_turn)) /\
  MultiToolAgent.generate_content_async JsonLite.json_loads
    (initial (Sample.adapter (inr Sample.completion)) Sample.request_with_bare_turn)
  = (Raise (TypeError "'NoneType' object is not iterable"),
     initial (Sample.adapter (inr Sample.completion)) Sample.request_with_bare_turn).
Proof.
  split; [discriminate|]. split.
  - intros (messages & H). vm_compute in H. discriminate H.
  - reflexivity.
Qed.

(** C2. For a request whose turn sequence is empty the method raises
    [ValueError("LlmRequest must contain contents")]; nothing has happened
    by then: no vendor call, no log record, nothing yielded. *)
Theorem C2_empty_contents_rejected
        (json_loads : string -> option json)
        (self : SambaAdapter) (llm_request : LlmRequest) :
  contents llm_request = [] ->
  let r := MultiToolAgent.generate_content_async json_loads
             (initial self llm_request) in
  outcome r = Raise (ValueError "LlmRequest must contain contents") /\
  w_trace (final r) = [] /\
  vendor_calls (w_trace (final r)) = [] /\
  yielded (w_trace (final r)) = [].
Proof.
  intros Hempty r. subst r.
  rewrite generate_content_async_paths, Hempty.
  now repeat split.
Qed.

Lemma C2_empty_contents_rejected_witness :
  contents Sample.empty_request = [] /\
  outcome (MultiToolAgent.generate_content_async JsonLite.json_loads
             (initial (Sample.adapter (inr Sample.completion)) Sample.empty_request))
    = Raise (ValueError "LlmRequest must contain contents") /\
  vendor_calls
    (w_trace (final (MultiToolAgent.generate_content_async JsonLite.json_loads
                       (initial (Sample.adapter (inr Sample.completion))
                                Sample.empty_request)))) = [].
Proof.
  split; [reflexivity|].
  destruct (C2_empty_contents_rejected JsonLite.json_loads
              (Sample.adapter (inr Sample.completion)) Sample.empty_request)
    as (Hout & _ & Hcalls & _); [reflexivity|].
  split; [exact Hout | exact Hcalls].
Defined.



(** C5.  On a request of the framework's class, which has no [tools]
    attribute, the method raises [AttributeError] where it reads
    [llm_request.tools] (line 70); on a request object that does carry a
    tool of the library, whose parameters are a [types.Schema], it raises
    [AttributeError] at the [to_dict()] of line 78.  Either way there is
    no vendor call, hence no payload with or without tools. *)
Theorem C5_tools_never_reach_the_payload :
  MultiToolAgent.generate_content_async JsonLite.json_loads
    (initial (Sample.adapter (inr Sample.completion)) Sample.adk_request)
  = (Raise (AttributeError "'LlmRequest' object has no attribute 'tools'"),
     initial (Sample.adapter (inr Sample.completion)) Sample.adk_request) /\
  MultiToolAgent.generate_content_async JsonLite.json_loads
    (initial (Sample.adapter (inr Sample.completion)) Sample.request_with_genai_tool)
  = (Raise (AttributeError "'Schema' object has no attribute 'to_dict'"),
     initial (Sample.adapter (inr Sample.completion)) Sample.request_with_genai_tool).
Proof.
  split; reflexivity.
Qed.

(** C6. When the vendor call of a run raises [e], the method logs
    "SambaNova call failed" for [e] and raises that same [e]; it made that
    one call only, wrote no other log record and yielded nothing. *)
Theorem C6_vendor_failure_propagates
        (json_loads : string -> option json)
        (self : SambaAdapter) (llm_request : LlmRequest)
        (args : CreateArgs) (e : Exn) :
  let r := MultiToolAgent.generate_content_async json_loads
             (initial self llm_request) in
  In (EvCreate args) (w_trace (final r)) ->
  chat_completions_create (_client self) args = inl e ->
  outcome r = Raise e /\
  vendor_calls (w_trace (final r)) = [args] /\
  log_records (w_trace (final r)) = [EvLogException "SambaNova call failed" e] /\
  yielded (w_trace (final r)) = [].
Proof.
  intros r Hin Hfail. subst r.
  destruct (created_args json_loads self llm_request args Hin) as (Hc & Hprep).
  rewrite generate_content_async_paths in *.
  destruct (contents llm_request) as [|c cs]; [congruence|].
  rewrite Hprep, Hfail.
  now repeat split.
Qed.

Lemma C6_vendor_failure_propagates_witness :
  chat_completions_create
    (_client (Sample.adapter (inl (APIError "504 Gateway Timeout"))))
    (create_args_of (Sample.adapter (inl (APIError "504 Gateway Timeout")))
                    Sample.request_with_tool)
    = inl (APIError "504 Gateway Timeout") /\
  outcome (MultiToolAgent.generate_content_async JsonLite.json_loads
             (initial (Sample.adapter (inl (APIError "504 Gateway Timeout")))
                      Sample.request_with_tool))
    = Raise (APIError "504 Gateway Timeout") /\
  yielded
    (w_trace (final (MultiToolAgent.generate_content_async JsonLite.json_loads
                       (initial (Sample.adapter (inl (APIError "504 Gateway Timeout")))
                                Sample.request_with_tool)))) = [].
Proof.
  split; [reflexivity|].
  destruct (C6_vendor_failure_propagates JsonLite.json_loads
              (Sample.adapter (inl (APIError "504 Gateway Timeout")))
              Sample.request_with_tool
              (create_args_of (Sample.adapter (inl (APIError "504 Gateway Timeout")))
                              Sample.request_with_tool)
              (APIError "504 Gateway Timeout"))
    as (Hout & _ & _ & Hy).
  - vm_compute. left. reflexivity.
  - reflexivity.
  - split; [exact Hout | exact Hy].
Defined.

Lemma filter_flat_map {A B : Type} (f : B -> bool) (g : A -> list B) (l : list A) :
  filter f (flat_map g l) = flat_map (fun x => filter f (g x)) l.
Proof.
  induction l as [|x l IH]; simpl; [reflexivity|].
  now rewrite filter_app, IH.
Qed.

Lemma text_parts_of_choice (json_loads : string -> option json) (choice : Choice) :
  filter is_text_part (parts_of_choice json_loads choice)
  = match message_of_choice choice with
    | Some msg => text_parts_of msg
    | None => []
    end.
Proof.
  unfold parts_of_choice. destruct (message_of_choice choice) as [msg|];
    [|reflexivity].
  rewrite filter_app.
  assert (Hcalls : filter is_text_part
                     (function_call_parts json_loads (tool_calls_of msg)) = []).
  { induction (function_call_parts json_loads (tool_calls_of msg)) as [|p l IH]
      eqn:E in |- *; [reflexivity|]. clear IH.
    assert (Hall : forall q, In q (p :: l) -> is_text_part q = false).
    { intros q Hq. rewrite <- E in Hq.
      apply function_call_parts_have_no_text in Hq.
      unfold is_text_part. now rewrite (proj1 Hq). }
    clear E. induction (p :: l) as [|q l' IH']; [reflexivity|].
    simpl. rewrite (Hall q (or_introl eq_refl)).
    apply IH'. intros q' Hq'. apply Hall. now right. }
  rewrite Hcalls, app_nil_r.
  unfold text_parts_of. destruct (cm_content msg) as [| |t]; try reflexivity.
  now destruct (String.eqb t EmptyString).
Qed.

(** C7.  When the vendor call of a run returns a completion, the run ends
    normally with one yielded response, whose parts are those the loop
    body makes for each choice, one choice after the other.  Among them
    there is a text part with text [t] exactly when some choice of the
    completion has a message whose content is the non-empty string [t],
    and the text parts are one per such choice, in the order of the
    choices.  A completion without choices (the attribute missing, [None]
    or empty) gives no parts and no log record; a choice without a message
    gives no parts; a message without tool calls (the attribute missing,
    [None] or empty) gives its text part and nothing else. *)
Theorem C7_text_part_iff_content
        (json_loads : string -> option json)
        (self : SambaAdapter) (llm_request : LlmRequest)
        (args : CreateArgs) (completion : ChatCompletion) :
  let r := MultiToolAgent.generate_content_async json_loads
             (initial self llm_request) in
  In (EvCreate args) (w_trace (final r)) ->
  chat_completions_create (_client self) args = inr completion ->
  outcome r = Ok tt /\
  exists response,
    yielded (w_trace (final r)) = [response] /\
    parts (content response)
    = flat_map (parts_of_choice json_loads) (choices_of completion) /\
    (forall choice w,
        outcome (MultiToolAgent.choice_body json_loads choice [] w)
        = Ok (parts_of_choice json_loads choice)) /\
    (forall t,
        In (Part_text t) (parts (content response)) <->
        exists choice msg,
          In choice (choices_of completion) /\
          ch_message choice = Have msg /\
          cm_content msg = Have t /\ t <> EmptyString) /\
    filter is_text_part (parts (content response))
    = flat_map (fun choice =>
                  match message_of_choice choice with
                  | Some msg => text_parts_of msg
                  | None => []
                  end) (choices_of completion) /\
    (choices_of completion = [] ->
     parts (content response) = [] /\ log_records (w_trace (final r)) = []) /\
    (forall choice,
        message_of_choice choice = None ->
        parts_of_choice json_loads choice = []) /\
    (forall choice msg,
        ch_message choice = Have msg -> tool_calls_of msg = [] ->
        parts_of_choice json_loads choice = text_parts_of msg).
Proof.
  intros r Hin Hok. subst r.
  destruct (created_args json_loads self llm_request args Hin) as (Hc & Hprep).
  rewrite generate_content_async_paths in *.
  destruct (contents llm_request) as [|c cs]; [congruence|].
  rewrite Hprep, Hok.
  unfold outcome, final, after. cbn [fst snd w_trace initial].
  destruct (success_trace_observed json_loads args completion) as (_ & H2 & H3).
  cbn [app] in *. rewrite H2, H3.
  split; [reflexivity|].
  exists (response_of json_loads completion).
  split; [reflexivity|]. split; [reflexivity|].
  split; [intros choice w; now rewrite choice_body_returns|].
  split; [|split; [|split; [|split]]].
  - intros t. cbn [response_of content parts]. unfold parts_of_completion.
    rewrite in_flat_map. split.
    + intros (choice & Hchoice & Hp). unfold parts_of_choice in Hp.
      destruct (message_of_choice choice) as [msg|] eqn:Em; [|destruct Hp].
      unfold message_of_choice in Em.
      destruct (ch_message choice) as [| |msg'] eqn:Ech; try discriminate Em.
      injection Em as ->.
      apply in_app_or in Hp. destruct Hp as [Hp|Hp].
      * unfold text_parts_of in Hp.
        destruct (cm_content msg) as [| |t'] eqn:Ect; try contradiction.
        destruct (String.eqb t' EmptyString) eqn:Et; [contradiction|].
        destruct Hp as [Hp|[]]. injection Hp as <-.
        exists choice, msg. repeat split; try assumption.
        intros ->. discriminate Et.
      * apply function_call_parts_have_no_text in Hp.
        destruct Hp as [Hp _]. discriminate Hp.
    + intros (choice & msg & Hchoice & Hm & Hct & Hne).
      exists choice. split; [exact Hchoice|].
      unfold parts_of_choice, message_of_choice. rewrite Hm.
      apply in_or_app. left. unfold text_parts_of. rewrite Hct.
      destruct (String.eqb t EmptyString) eqn:Et.
      * apply String.eqb_eq in Et. contradiction.
      * now left.
  - cbn [response_of content parts]. unfold parts_of_completion.
    rewrite filter_flat_map. apply flat_map_ext.
    intros choice. apply text_parts_of_choice.
  - intros Hnone. cbn [response_of content parts].
    unfold parts_of_completion, logs_of_completion. rewrite Hnone. now split.
  - intros choice Hnone. unfold parts_of_choice. now rewrite Hnone.
  - intros choice msg Hm Hnone. unfold parts_of_choice, message_of_choice.
    rewrite Hm, Hnone. unfold function_call_parts. simpl. apply app_nil_r.
Qed.

(** C8. The parts of the yielded response are in order: the parts of the
    first choice, then those of the second, and so on; the parts of a
    choice are its text part, if any, followed by the function-call parts
    of its tool-call entries in the order of the entries. *)
Theorem C8_parts_in_order
        (json_loads : string -> option json)
        (self : SambaAdapter) (llm_request : LlmRequest)
        (args : CreateArgs) (completion : ChatCompletion) :
  let r := MultiToolAgent.generate_content_async json_loads
             (initial self llm_request) in
  In (EvCreate args) (w_trace (final r)) ->
  chat_completions_create (_client self) args = inr completion ->
  exists response,
    yielded (w_trace (final r)) = [response] /\
    parts (content response)
      = flat_map
          (fun choice =>
             match message_of_choice choice with
             | Some msg =>
                 text_parts_of msg
                   ++ flat_map (fun tc => part_of_entry (result_of_entry json_loads tc))
                               (tool_calls_of msg)
             | None => []
             end)
          (choices_of completion) /\
    (forall choice msg p,
        In choice (choices_of completion) ->
        message_of_choice choice = Some msg ->
        (In p (text_parts_of msg) -> function_call p = None) /\
        (In p (flat_map (fun tc => part_of_entry (result_of_entry json_loads tc))
                        (tool_calls_of msg)) -> text p = None)).
Proof.
  intros r Hin Hok. subst r.
  destruct (created_args json_loads self llm_request args Hin) as (Hc & Hprep).
  rewrite generate_content_async_paths in *.
  destruct (contents llm_request) as [|c cs]; [congruence|].
  rewrite Hprep, Hok.
  unfold final, after. cbn [snd w_trace initial].
  destruct (success_trace_observed json_loads
              args completion) as (_ & H2 & _).
  cbn [app] in *. rewrite H2.
  exists (response_of json_loads completion).
  split; [reflexivity|]. split; [reflexivity|].
  intros choice msg p _ _. split.
  - unfold text_parts_of. destruct (cm_content msg) as [| |t]; try contradiction.
    destruct (String.eqb t EmptyString); [contradiction|].
    intros [<-|[]]. reflexivity.
  - intros Hp. now apply (function_call_parts_have_no_text json_loads) in Hp.
Qed.

Lemma C8_parts_in_order_witness :
  chat_completions_create
    (_client (Sample.adapter (inr Sample.completion)))
    (create_args_of (Sample.adapter (inr Sample.completion)) Sample.request_with_tool)
    = inr Sample.completion /\
  exists response,
    yielded
      (w_trace (final (MultiToolAgent.generate_content_async JsonLite.json_loads
                         (initial (Sample.adapter (inr Sample.completion))
                                  Sample.request_with_tool)))) = [response] /\
    parts (content response)
      = [Part_text "Hello";
         Sample.weather_call_part;
         Part_function_call {| fc_name := Some "get_current_time"; fc_args := Some [] |}].
Proof.
  split; [reflexivity|].
  destruct (C8_parts_in_order JsonLite.json_loads
              (Sample.adapter (inr Sample.completion)) Sample.request_with_tool
              (create_args_of (Sample.adapter (inr Sample.completion))
                              Sample.request_with_tool)
              Sample.completion)
    as (response & Hy & Hparts & _).
  - vm_compute. left. reflexivity.
  - reflexivity.
  - exists response. split; [exact Hy|]. rewrite Hparts. reflexivity.
Defined.

(** The method never writes to the request or to the adapter. *)
Lemma generate_content_async_preserves (json_loads : string -> option json) :
  preserves_objects (MultiToolAgent.generate_content_async json_loads).
Proof.
  unfold MultiToolAgent.generate_content_async.
  apply preserves_bind; [apply preserves_get_request | intros llm_request].
  apply preserves_bind; [apply preserves_get_self | intros self].
  destruct (negb (truthy_list (contents llm_request))); [apply preserves_raise|].
  apply preserves_bind.
  { apply preserves_for_each. intros c s.
    apply preserves_bind; [apply preserves_iterate | intros ?; apply preserves_ret]. }
  intros messages. apply preserves_bind.
  { unfold MultiToolAgent.build_api_tools.
    apply preserves_bind; [apply preserves_read_tools | intros ts].
    destruct (truthy_list (or_empty ts)); [|apply preserves_ret].
    apply preserves_bind; [apply preserves_read_tools | intros ts'].
    apply preserves_bind; [apply preserves_iterate | intros l].
    apply preserves_for_each. intros t s. unfold MultiToolAgent.tool_body.
    repeat (apply preserves_bind; [apply preserves_index0 | intros ?]).
    apply preserves_bind; [apply preserves_to_dict | intros ?].
    apply preserves_ret. }
  intros api_tools. apply preserves_bind.
  { apply preserves_try; [apply preserves_to_thread_create|].
    intros e. apply preserves_bind; [apply preserves_emit | intros _].
    apply preserves_raise. }
  intros completion. apply preserves_bind; [|intros ps; apply preserves_emit].
  apply preserves_for_each. intros choice ps.
  unfold MultiToolAgent.choice_body.
  destruct (getattr (ch_message choice) None) as [msg|]; [|apply preserves_ret].
  apply preserves_bind.
  { destruct (truthy_str (getattr (cm_content msg) None)); [|apply preserves_ret].
    apply preserves_try; [|intros _; apply preserves_ret].
    apply preserves_bind; [apply preserves_ret | intros p; apply preserves_ret]. }
  intros ps'. destruct (hasattr (cm_tool_calls msg)); [|apply preserves_ret].
  apply preserves_for_each. intros tc qs.
  unfold MultiToolAgent.tool_call_body.
  apply preserves_try.
  - destruct (getattr (tc_function tc) None) as [f|]; [|apply preserves_ret].
    apply preserves_bind.
    { unfold MultiToolAgent.json_loads_py.
      destruct (getattr (fn_arguments f) _) as [s|]; [|apply preserves_raise].
      destruct (json_loads s); [apply preserves_ret | apply preserves_raise]. }
    intros v. apply preserves_bind; [apply preserves_FunctionCall_new|].
    intros fc. apply preserves_ret.
  - intros e. apply preserves_bind; [apply preserves_emit | intros _].
    apply preserves_ret.
Qed.

(** C9. Whatever the world the method starts in and however it ends (by
    returning or by raising), the request still has the turn sequence and
    the tools it had, and the adapter still has the model identifier and
    the client it had. *)
Theorem C9_request_and_adapter_unchanged
        (json_loads : string -> option json) (w : World) :
  let w' := final (MultiToolAgent.generate_content_async json_loads w) in
  contents (w_request w') = contents (w_request w) /\
  tools (w_request w') = tools (w_request w) /\
  _model (w_self w') = _model (w_self w) /\
  _client (w_self w') = _client (w_self w).
Proof.
  intros w'. subst w'. unfold final.
  destruct (generate_content_async_preserves json_loads w) as [Hr Hs].
  rewrite Hr, Hs. now repeat split.
Qed.

Lemma C7_text_part_iff_content_witness :
  chat_completions_create
    (_client (Sample.adapter (inr Sample.completion)))
    (create_args_of (Sample.adapter (inr Sample.completion)) Sample.request_with_tool)
    = inr Sample.completion /\
  exists response,
    yielded
      (w_trace (final (MultiToolAgent.generate_content_async JsonLite.json_loads
                         (initial (Sample.adapter (inr Sample.completion))
                                  Sample.request_with_tool)))) = [response] /\
    In (Part_text "Hello") (parts (content response)) /\
    filter is_text_part (parts (content response)) = [Part_text "Hello"].
Proof.
  split; [reflexivity|].
  destruct (C7_text_part_iff_content JsonLite.json_loads
              (Sample.adapter (inr Sample.completion)) Sample.request_with_tool
              (create_args_of (Sample.adapter (inr Sample.completion))
                              Sample.request_with_tool)
              Sample.completion)
    as (_ & response & Hy & _ & _ & Hiff & Htexts & _).
  - vm_compute. left. reflexivity.
  - reflexivity.
  - exists response. split; [exact Hy|]. split.
    + apply Hiff. eexists. eexists.
      split; [left; reflexivity|]. split; [reflexivity|].
      split; [reflexivity | discriminate].
    + rewrite Htexts. reflexivity.
Defined.

(** C10.  With a [json.loads] that reads the text of an empty object as
    the empty dict: a tool-call entry whose function object has no
    arguments attribute makes the loop body append a function-call part
    with the entry's name and the empty dict as arguments, without raising
    and without a log record; and when the vendor call of a run returns a
    completion that carries the entry, the method returns normally and the
    response it yields holds that part. *)
Theorem C10_missing_arguments_default
        (json_loads : string -> option json) (tc : ToolCall) (f : Function) :
  json_loads "{}" = Some (JObj []) ->
  tc_function tc = Have f ->
  fn_arguments f = Missing ->
  let part :=
    Part_function_call {| fc_name := getattr (fn_name f) (Some EmptyString);
                          fc_args := Some [] |} in
  (forall parts w,
      MultiToolAgent.tool_call_body json_loads tc parts w = (Ok (parts ++ [part]), w)) /\
  (forall self llm_request args completion choice msg,
      let r := MultiToolAgent.generate_content_async json_loads
                 (initial self llm_request) in
      In (EvCreate args) (w_trace (final r)) ->
      chat_completions_create (_client self) args = inr completion ->
      In choice (choices_of completion) ->
      ch_message choice = Have msg ->
      In tc (tool_calls_of msg) ->
      outcome r = Ok tt /\
      exists response,
        yielded (w_trace (final r)) = [response] /\
        In part (parts (content response))).
Proof.
  intros Hempty Hf Hmissing part.
  assert (Hres : result_of_entry json_loads tc = EntryPart part).
  { unfold result_of_entry, decoded_arguments. rewrite Hf, Hmissing, Hempty.
    subst part. unfold entry_name. now destruct (fn_name f). }
  split.
  - intros ps w. rewrite tool_call_body_returns, Hres. simpl.
    now rewrite after_nil.
  - intros self llm_request args completion choice msg r Hin Hok Hchoice Hmsg Htc.
    subst r.
    destruct (created_args json_loads self llm_request args Hin) as (Hc & Hprep).
    rewrite generate_content_async_paths in *.
    destruct (contents llm_request) as [|c cs]; [congruence|].
    rewrite Hprep, Hok.
    unfold outcome, final, after. cbn [fst snd w_trace initial].
    destruct (success_trace_observed json_loads args completion) as (_ & H2 & _).
    cbn [app] in *. rewrite H2.
    split; [reflexivity|].
    exists (response_of json_loads completion). split; [reflexivity|].
    cbn [response_of content parts].
    unfold parts_of_completion. apply in_flat_map. exists choice.
    split; [exact Hchoice|].
    unfold parts_of_choice, message_of_choice. rewrite Hmsg.
    apply in_or_app. right.
    unfold function_call_parts. apply in_flat_map. exists tc.
    split; [exact Htc|]. rewrite Hres. now left.
Qed.

Lemma C10_missing_arguments_default_witness :
  JsonLite.json_loads "{}" = Some (JObj []) /\
  exists response,
    yielded
      (w_trace (final (MultiToolAgent.generate_content_async JsonLite.json_loads
                         (initial (Sample.adapter (inr Sample.completion))
                                  Sample.request_with_tool)))) = [response] /\
    In (Part_function_call {| fc_name := Some "get_current_time"; fc_args := Some [] |})
       (parts (content response)).
Proof.
  split; [reflexivity|].
  destruct (proj2 (C10_missing_arguments_default JsonLite.json_loads
                     (Sample.tool_call "get_current_time" Missing)
                     {| fn_name := Have "get_current_time"; fn_arguments := Missing |}
                     eq_refl eq_refl eq_refl)
              (Sample.adapter (inr Sample.completion)) Sample.request_with_tool
              (create_args_of (Sample.adapter (inr Sample.completion))
                              Sample.request_with_tool)
              Sample.completion
              {| ch_message :=
                   Have {| cm_content := Have "Hello";
                           cm_tool_calls :=
                             Have [Sample.tool_call "get_weather"
                                     (Have Sample.city_arguments);
                                   Sample.tool_call "get_weather" (Have "{bad");
                                   Sample.tool_call "get_current_time" Missing] |} |}
              {| cm_content := Have "Hello";
                 cm_tool_calls :=
                   Have [Sample.tool_call "get_weather" (Have Sample.city_arguments);
                         Sample.tool_call "get_weather" (Have "{bad");
                         Sample.tool_call "get_current_time" Missing] |})
    as (_ & response & Hy & Hin).
  - vm_compute. left. reflexivity.
  - reflexivity.
  - left. reflexivity.
  - reflexivity.
  - right. right. left. reflexivity.
  - exists response. split; [exact Hy | exact Hin].
Defined.

(** In [multi_tool_agent] a tool-call entry whose arguments do not parse is
    logged and adds no part; the loop goes on with the parts it had.  An
    entry whose arguments parse to a dict adds a function-call part with
    that dict. *)
Lemma multi_tool_agent_isolates_malformed_arguments
      (json_loads : string -> option json) (tc : ToolCall) (f : Function) (s : string) :
  tc_function tc = Have f ->
  fn_arguments f = Have s ->
  (json_loads s = None ->
   forall parts,
     returns (MultiToolAgent.tool_call_body json_loads tc parts) parts
             [EvLogError "Error parsing tool call: " (JSONDecodeError s)]) /\
  (forall members,
      json_loads s = Some (JObj members) ->
      forall parts,
        returns (MultiToolAgent.tool_call_body json_loads tc parts)
                (parts ++ [Part_function_call
                             {| fc_name := getattr (fn_name f) (Some EmptyString);
                                fc_args := Some members |}])
                []).
Proof.
  intros Hf Hs. split.
  - intros Hnone ps w. rewrite tool_call_body_returns.
    unfold result_of_entry, decoded_arguments. rewrite Hf, Hs, Hnone. simpl.
    now rewrite app_nil_r.
  - intros members Hsome ps w. rewrite tool_call_body_returns.
    unfold result_of_entry, decoded_arguments. rewrite Hf, Hs, Hsome. simpl.
    unfold entry_name. now destruct (fn_name f).
Qed.

(** In [greeting_agent] the arguments string is handed to
    [types.FunctionCall] as it is; the entry adds no part and nothing is
    logged, whether the string is valid JSON or not. *)
Lemma greeting_agent_drops_string_arguments
      (tc : ToolCall) (f : Function) (s : string) (parts : list Part) :
  tc_function tc = Have f ->
  fn_arguments f = Have s ->
  returns (GreetingAgent.tool_call_body tc parts) parts [].
Proof.
  intros Hf Hs w. unfold GreetingAgent.tool_call_body. rewrite Hf. simpl.
  rewrite Hs. cbn. now rewrite after_nil.
Qed.

(** C3. On a response with one choice and two tool calls, the first with
    the arguments of a JSON object with the key city and the second with
    malformed arguments, [multi_tool_agent] yields the function-call part
    of the first call, with its arguments parsed, and logs the second;
    [greeting_agent] yields no function-call part at all and logs
    nothing. *)
Theorem C3_greeting_agent_drops_tool_calls :
  let multi :=
    MultiToolAgent.generate_content_async JsonLite.json_loads
      (initial (Sample.adapter (inr Sample.two_calls)) Sample.request_without_tools) in
  let greeting :=
    GreetingAgent.generate_content_async
      (initial (Sample.adapter (inr Sample.two_calls)) Sample.request_without_tools) in
  (outcome multi = Ok tt /\
   yielded (w_trace (final multi))
     = [ {| content := {| role := Some "model"; parts := [Sample.weather_call_part] |};
            partial := false |} ] /\
   log_records (w_trace (final multi))
     = [EvLogError "Error parsing tool call: " (JSONDecodeError "{bad")]) /\
  (outcome greeting = Ok tt /\
   yielded (w_trace (final greeting))
     = [ {| content := {| role := Some "model"; parts := [] |};
            partial := false |} ] /\
   log_records (w_trace (final greeting)) = []).
Proof.
  vm_compute. repeat split.
Qed.


(* ===================================================================== *)
(** ** Walking the response ([greeting_agent])                            *)
(* ===================================================================== *)

Lemma greeting_tool_call_body_returns (tc : ToolCall) (parts : list Part) :
  returns (GreetingAgent.tool_call_body tc parts)
          (parts ++ greeting_part_of_entry tc) [].
Proof.
  destruct tc as [[| |[nm ar]]];
    unfold GreetingAgent.tool_call_body, greeting_part_of_entry; simpl.
  - intros w. cbn. now rewrite after_nil, app_nil_r.
  - intros w. cbn. now rewrite after_nil, app_nil_r.
  - destruct ar as [| |s]; intros w; cbn;
      rewrite ?after_nil, ?app_nil_r; destruct nm; reflexivity.
Qed.

Lemma greeting_tool_calls_loop_returns (tcs : list ToolCall) (parts : list Part) :
  returns (for_each tcs GreetingAgent.tool_call_body parts)
          (parts ++ flat_map greeting_part_of_entry tcs) [].
Proof.
  rewrite <- fold_left_append.
  replace (@nil Event) with (flat_map (fun _ : ToolCall => @nil Event) tcs)
    by (induction tcs; simpl; auto).
  apply (returns_for_each GreetingAgent.tool_call_body
           (fun tc s => s ++ greeting_part_of_entry tc)
           (fun _ => [])).
  intros tc s. apply greeting_tool_call_body_returns.
Qed.

Lemma greeting_choice_body_returns (choice : Choice) (parts : list Part) :
  returns (GreetingAgent.choice_body choice parts)
          (parts ++ greeting_parts_of_choice choice) [].
Proof.
  destruct choice as [[| |[ct tcs]]];
    unfold GreetingAgent.choice_body, greeting_parts_of_choice,
           message_of_choice, text_parts_of, tool_calls_of; simpl.
  - rewrite app_nil_r. apply returns_ret.
  - rewrite app_nil_r. apply returns_ret.
  - assert (Htext :
             forall k : list Part -> M (list Part),
             bind (if truthy_str (getattr ct None)
                   then
                     try_except
                       (p <- Part_from_text
                               match getattr ct None with
                               | Some t => t
                               | None => EmptyString
                               end ;;
                        ret (parts ++ [p]))
                       (fun _ =>
                          ret (parts ++
                                 [Part_text match getattr ct None with
                                            | Some t => t
                                            | None => EmptyString
                                            end]))
                   else ret parts) k
             = k (parts ++ match ct with
                           | Have t => if String.eqb t EmptyString then []
                                       else [Part_text t]
                           | _ => []
                           end)).
    { intros k. destruct ct as [| |[|c t]]; simpl; rewrite ?app_nil_r; reflexivity. }
    rewrite Htext.
    destruct tcs as [| |l]; simpl; rewrite ?app_nil_r; try apply returns_ret.
    rewrite app_assoc. apply greeting_tool_calls_loop_returns.
Qed.

Lemma greeting_parse_completion_returns (completion : ChatCompletion) :
  returns (GreetingAgent.parse_completion completion)
          (greeting_parts_of_completion completion) [].
Proof.
  unfold GreetingAgent.parse_completion, greeting_parts_of_completion.
  replace (or_empty (getattr (cc_choices completion) (Some [])))
    with (choices_of completion)
    by (unfold choices_of; destruct (cc_choices completion); reflexivity).
  change (flat_map greeting_parts_of_choice (choices_of completion))
    with ([] ++ flat_map greeting_parts_of_choice (choices_of completion)).
  rewrite <- fold_left_append.
  replace (@nil Event)
    with (flat_map (fun _ : Choice => @nil Event) (choices_of completion))
    by (induction (choices_of completion); simpl; auto).
  apply (returns_for_each GreetingAgent.choice_body
           (fun c s => s ++ greeting_parts_of_choice c) (fun _ => [])).
  intros c s. apply greeting_choice_body_returns.
Qed.

(** Every path of the [greeting_agent] method, as one equation. *)
Lemma greeting_paths (self : SambaAdapter) (llm_request : LlmRequest) :
  GreetingAgent.generate_content_async (initial self llm_request) =
    match contents llm_request with
    | [] => (Raise (ValueError "LlmRequest must contain contents"),
             initial self llm_request)
    | _ :: _ =>
        match messages_of (contents llm_request) with
        | inl e => (Raise e, initial self llm_request)
        | inr messages =>
            match chat_completions_create (_client self)
                    (GreetingAgent.call_samba self messages) with
            | inl e =>
                (Raise e,
                 after (initial self llm_request)
                       [EvCreate (GreetingAgent.call_samba self messages);
                        EvLogException "SambaNova call failed" e])
            | inr completion =>
                (Ok tt,
                 after (initial self llm_request)
                       [EvCreate (GreetingAgent.call_samba self messages);
                        EvYield (greeting_response_of completion)])
            end
        end
    end.
Proof.
  unfold GreetingAgent.generate_content_async.
  unfold bind at 1. unfold get_request at 1. unfold bind at 1.
  unfold get_self at 1. cbn [initial w_request w_self].
  destruct (contents llm_request) as [|c cs] eqn:Ec; [reflexivity|].
  cbn [truthy_list negb].
  unfold bind at 1.
  pose proof (greeting_build_messages_cases (c :: cs)) as Hm.
  destruct (messages_of (c :: cs)) as [e|messages].
  { now rewrite Hm, after_nil. }
  rewrite Hm, after_nil.
  set (args := GreetingAgent.call_samba self _).
  unfold bind at 1. unfold try_except, to_thread_create.
  unfold bind at 1. cbn [emit].
  destruct (chat_completions_create (_client self) args) as [e|completion].
  - reflexivity.
  - cbn [ret]. unfold bind at 1.
    rewrite greeting_parse_completion_returns. unfold yield.
    rewrite returns_emit. rewrite !after_after.
    unfold after; cbn. reflexivity.
Qed.

(** With parts in every turn the call is the one of [greeting_create_args_of]. *)
Lemma greeting_paths_with_parts (self : SambaAdapter) (llm_request : LlmRequest) :
  contents llm_request <> [] ->
  Forall has_parts (contents llm_request) ->
  GreetingAgent.generate_content_async (initial self llm_request) =
    match chat_completions_create (_client self)
            (greeting_create_args_of self llm_request) with
    | inl e =>
        (Raise e,
         after (initial self llm_request)
               [EvCreate (greeting_create_args_of self llm_request);
                EvLogException "SambaNova call failed" e])
    | inr completion =>
        (Ok tt,
         after (initial self llm_request)
               [EvCreate (greeting_create_args_of self llm_request);
                EvYield (greeting_response_of completion)])
    end.
Proof.
  intros Hne Hparts. rewrite greeting_paths.
  destruct (contents llm_request) as [|c cs] eqn:Ec; [congruence|].
  rewrite (messages_of_with_parts _ Hparts).
  unfold greeting_create_args_of. now rewrite Ec.
Qed.

(* ===================================================================== *)
(** ** Further properties of the two adapters                             *)
(* ===================================================================== *)

Lemma conversion_fails_with_convert_tool (t : Tool) (e : Exn) :
  conversion_fails_with t e -> convert_tool t = inl e.
Proof.
  unfold conversion_fails_with, convert_tool.
  intros [[-> ->]|[[-> ->]|(d & rest & -> & [[-> ->]|(fields & -> & ->)])]];
    reflexivity.
Qed.

Lemma convertible_convert_tool (t : Tool) :
  convertible t -> exists entry, convert_tool t = inr entry.
Proof.
  unfold convertible, convert_tool. intros (d & rest & p & -> & ->).
  now eexists.
Qed.

Lemma convert_tools_first_failure (ts1 ts2 : list Tool) (t : Tool) (e : Exn) :
  Forall convertible ts1 ->
  conversion_fails_with t e ->
  convert_tools (ts1 ++ t :: ts2) = inl e.
Proof.
  intros Hall Hfail. induction Hall as [|t1 ts1 H1 Hall IH]; simpl.
  - now rewrite (conversion_fails_with_convert_tool t e Hfail).
  - destruct (convertible_convert_tool t1 H1) as [entry ->]. now rewrite IH.
Qed.

(** [multi_tool_agent], on a request object that carries a tools list: the
    first tool that does not convert ends the method before the vendor is
    called, with [TypeError] when its declarations are [None], with
    [IndexError] when they are an empty list, and with [AttributeError]
    when the parameters of its first declaration are [None] or a
    [types.Schema]; nothing is logged and nothing is yielded. *)
Theorem tool_conversion_failure_raises_before_call
        (json_loads : string -> option json)
        (self : SambaAdapter) (llm_request : LlmRequest)
        (ts1 ts2 : list Tool) (t : Tool) (e : Exn) :
  contents llm_request <> [] ->
  Forall has_parts (contents llm_request) ->
  tools llm_request = Have (ts1 ++ t :: ts2) ->
  Forall convertible ts1 ->
  conversion_fails_with t e ->
  MultiToolAgent.generate_content_async json_loads (initial self llm_request)
  = (Raise e, initial self llm_request).
Proof.
  intros Hc Hparts Htools Hall Hfail. rewrite generate_content_async_paths.
  destruct (contents llm_request) as [|c cs] eqn:Ec; [congruence|].
  unfold prepared_args. rewrite Ec, (messages_of_with_parts _ Hparts).
  unfold api_tools_of. rewrite Htools.
  now rewrite (convert_tools_first_failure ts1 ts2 t e Hall Hfail).
Qed.

Lemma tool_conversion_failure_raises_before_call_witness :
  MultiToolAgent.generate_content_async JsonLite.json_loads
    (initial (Sample.adapter (inr Sample.completion))
             {| contents := [Sample.user_turn];
                tools := Have [Sample.weather_tool;
                               {| function_declarations := None |};
                               Sample.genai_weather_tool] |})
  = (Raise (TypeError "'NoneType' object is not subscriptable"),
     initial (Sample.adapter (inr Sample.completion))
             {| contents := [Sample.user_turn];
                tools := Have [Sample.weather_tool;
                               {| function_declarations := None |};
                               Sample.genai_weather_tool] |}).
Proof.
  apply (tool_conversion_failure_raises_before_call JsonLite.json_loads
           (Sample.adapter (inr Sample.completion))
           {| contents := [Sample.user_turn];
              tools := Have [Sample.weather_tool;
                             {| function_declarations := None |};
                             Sample.genai_weather_tool] |}
           [Sample.weather_tool] [Sample.genai_weather_tool]
           {| function_declarations := None |}).
  - discriminate.
  - repeat constructor. discriminate.
  - reflexivity.
  - repeat constructor. unfold convertible. simpl. now repeat eexists.
  - left. now split.
Defined.

(** [multi_tool_agent]: whatever the request and whatever the client does,
    a run makes at most one vendor call and yields at most one response;
    it yields exactly when it returns normally, and then it has called the
    vendor. *)
Theorem at_most_one_call_and_one_yield
        (json_loads : string -> option json)
        (self : SambaAdapter) (llm_request : LlmRequest) :
  let r := MultiToolAgent.generate_content_async json_loads
             (initial self llm_request) in
  List.length (vendor_calls (w_trace (final r))) <= 1 /\
  List.length (yielded (w_trace (final r))) <= 1 /\
  (outcome r = Ok tt <-> List.length (yielded (w_trace (final r))) = 1) /\
  (yielded (w_trace (final r)) <> [] -> vendor_calls (w_trace (final r)) <> []).
Proof.
  intros r. subst r. rewrite generate_content_async_paths.
  destruct (contents llm_request) as [|c cs].
  { simpl. repeat split; try lia; try discriminate; congruence. }
  destruct (prepared_args self llm_request) as [e|args].
  { simpl. repeat split; try lia; try discriminate; congruence. }
  destruct (chat_completions_create (_client self) args) as [e|completion].
  { simpl. repeat split; try lia; try discriminate; congruence. }
  unfold outcome, final, after. cbn [fst snd w_trace initial].
  destruct (success_trace_observed json_loads args completion) as (H1 & H2 & _).
  cbn [app] in *. rewrite H1, H2. simpl.
  repeat split; try lia; try discriminate; congruence.
Qed.

(** [multi_tool_agent]: an entry whose arguments attribute is there but
    [None] makes [json.loads] raise [TypeError]; the exception is logged
    and the loop goes on with the parts it had. *)
Theorem none_arguments_logged_and_dropped
        (json_loads : string -> option json)
        (tc : ToolCall) (f : Function) (parts : list Part) :
  tc_function tc = Have f ->
  fn_arguments f = IsNone ->
  returns (MultiToolAgent.tool_call_body json_loads tc parts) parts
          [EvLogError "Error parsing tool call: "
             (TypeError "the JSON object must be str, bytes or bytearray, not NoneType")].
Proof.
  intros Hf Ha w. rewrite tool_call_body_returns.
  unfold result_of_entry, decoded_arguments. rewrite Hf, Ha. simpl.
  now rewrite app_nil_r.
Qed.

Lemma none_arguments_logged_and_dropped_witness :
  returns (MultiToolAgent.tool_call_body JsonLite.json_loads
             (Sample.tool_call "get_weather" IsNone) [Part_text "Hello"])
          [Part_text "Hello"]
          [EvLogError "Error parsing tool call: "
             (TypeError "the JSON object must be str, bytes or bytearray, not NoneType")].
Proof.
  apply (none_arguments_logged_and_dropped JsonLite.json_loads
           (Sample.tool_call "get_weather" IsNone)
           {| fn_name := Have "get_weather"; fn_arguments := IsNone |});
    reflexivity.
Defined.

(** [multi_tool_agent]: arguments that are valid JSON but not an object
    (an array, a number, a string, a boolean) parse, are then refused by
    [types.FunctionCall], and the entry is logged and dropped like a
    malformed one. *)
Theorem non_object_arguments_logged_and_dropped
        (json_loads : string -> option json)
        (tc : ToolCall) (f : Function) (s : string) (v : json) (parts : list Part) :
  tc_function tc = Have f ->
  fn_arguments f = Have s ->
  json_loads s = Some v ->
  (forall members, v <> JObj members) ->
  v <> JNull ->
  returns (MultiToolAgent.tool_call_body json_loads tc parts) parts
          [EvLogError "Error parsing tool call: " (ValidationError "FunctionCall")].
Proof.
  intros Hf Ha Hv Hobj Hnull w. rewrite tool_call_body_returns.
  unfold result_of_entry, decoded_arguments. rewrite Hf, Ha, Hv.
  destruct v as [|b|lit|str|items|members]; simpl; rewrite ?app_nil_r;
    try reflexivity.
  - congruence.
  - now destruct (Hobj members).
Qed.

Lemma non_object_arguments_logged_and_dropped_witness :
  returns (MultiToolAgent.tool_call_body JsonLite.json_loads
             (Sample.tool_call "get_weather" (Have "[1, 2]")) [])
          []
          [EvLogError "Error parsing tool call: " (ValidationError "FunctionCall")].
Proof.
  apply (non_object_arguments_logged_and_dropped JsonLite.json_loads
           (Sample.tool_call "get_weather" (Have "[1, 2]"))
           {| fn_name := Have "get_weather"; fn_arguments := Have "[1, 2]" |}
           "[1, 2]" (JArr [JNum "1"; JNum "2"]));
    try reflexivity; discriminate.
Defined.

Lemma multi_tool_agent_isolates_malformed_arguments_witness :
  returns (MultiToolAgent.tool_call_body JsonLite.json_loads
             (Sample.tool_call "get_weather" (Have "{bad")) [Part_text "Hello"])
          [Part_text "Hello"]
          [EvLogError "Error parsing tool call: " (JSONDecodeError "{bad")].
Proof.
  apply (proj1 (multi_tool_agent_isolates_malformed_arguments JsonLite.json_loads
                  (Sample.tool_call "get_weather" (Have "{bad"))
                  {| fn_name := Have "get_weather"; fn_arguments := Have "{bad" |}
                  "{bad" eq_refl eq_refl)).
  reflexivity.
Defined.

(** [multi_tool_agent]: the loop over the tool-call entries never raises,
    and every entry that has a function object is accounted for exactly
    once, by a part appended or by a log record; entries without a function
    object leave no trace. *)
Theorem every_entry_accounted_for
        (json_loads : string -> option json)
        (tcs : list ToolCall) (parts : list Part) (w : World) :
  exists added logs,
    for_each tcs (MultiToolAgent.tool_call_body json_loads) parts w
    = (Ok (parts ++ added), after w logs) /\
    List.length added + List.length logs = List.length (filter has_function tcs).
Proof.
  exists (function_call_parts json_loads tcs), (tool_call_logs json_loads tcs).
  split; [apply tool_calls_loop_returns|].
  unfold function_call_parts, tool_call_logs.
  induction tcs as [|tc tcs IH]; simpl; [reflexivity|].
  rewrite !length_app.
  unfold has_function at 1, result_of_entry at 1 3.
  destruct (tc_function tc) as [| |f]; simpl; try exact IH.
  destruct (decoded_arguments json_loads f) as [e|[]]; simpl; lia.
Qed.

(** [multi_tool_agent]: when the vendor call of a run returns a response
    whose only choice has a non-empty text and no tool-call entry, the run
    yields one response with that one text part, and no log record. *)
Theorem text_only_response
        (json_loads : string -> option json)
        (self : SambaAdapter) (llm_request : LlmRequest)
        (args : CreateArgs) (t : string) (msg : ChatMessage) :
  let r := MultiToolAgent.generate_content_async json_loads
             (initial self llm_request) in
  In (EvCreate args) (w_trace (final r)) ->
  cm_content msg = Have t ->
  t <> EmptyString ->
  tool_calls_of msg = [] ->
  chat_completions_create (_client self) args
  = inr {| cc_choices := Have [ {| ch_message := Have msg |} ] |} ->
  outcome r = Ok tt /\
  yielded (w_trace (final r))
  = [ {| content := {| role := Some "model"; parts := [Part_text t] |};
         partial := false |} ] /\
  log_records (w_trace (final r)) = [].
Proof.
  intros r Hin Hct Hne Htcs Hok. subst r.
  destruct (created_args json_loads self llm_request args Hin) as (Hc & Hprep).
  rewrite generate_content_async_paths in *.
  destruct (contents llm_request) as [|c cs]; [congruence|].
  rewrite Hprep, Hok.
  unfold outcome, final, after. cbn [fst snd w_trace initial].
  match goal with
  | |- context [logs_of_completion json_loads ?c] =>
      destruct (success_trace_observed json_loads args c) as (_ & H2 & H3)
  end.
  cbn [app] in *. rewrite H2, H3.
  unfold response_of, parts_of_completion, logs_of_completion, choices_of,
    parts_of_choice, logs_of_choice, message_of_choice, text_parts_of.
  simpl. rewrite Hct, Htcs.
  destruct (String.eqb t EmptyString) eqn:Et.
  - apply String.eqb_eq in Et. contradiction.
  - now repeat split.
Qed.

Lemma text_only_response_witness :
  yielded
    (w_trace
       (final
          (MultiToolAgent.generate_content_async JsonLite.json_loads
             (initial
                (Sample.adapter
                   (inr {| cc_choices :=
                             Have [ {| ch_message :=
                                         Have {| cm_content := Have "Hello";
                                                 cm_tool_calls := IsNone |} |} ] |}))
                Sample.request_with_tool))))
  = [ {| content := {| role := Some "model"; parts := [Part_text "Hello"] |};
         partial := false |} ].
Proof.
  apply (text_only_response JsonLite.json_loads
           (Sample.adapter
              (inr {| cc_choices :=
                        Have [ {| ch_message :=
                                    Have {| cm_content := Have "Hello";
                                            cm_tool_calls := IsNone |} |} ] |}))
           Sample.request_with_tool
           (create_args_of
              (Sample.adapter
                 (inr {| cc_choices :=
                           Have [ {| ch_message :=
                                       Have {| cm_content := Have "Hello";
                                               cm_tool_calls := IsNone |} |} ] |}))
              Sample.request_with_tool)
           "Hello"
           {| cm_content := Have "Hello"; cm_tool_calls := IsNone |}).
  - vm_compute. left. reflexivity.
  - reflexivity.
  - discriminate.
  - reflexivity.
  - reflexivity.
Defined.

(** [greeting_agent]: a request with an empty turn sequence is refused
    with [ValueError] before anything happens. *)
Theorem greeting_empty_contents_rejected
        (self : SambaAdapter) (llm_request : LlmRequest) :
  contents llm_request = [] ->
  GreetingAgent.generate_content_async (initial self llm_request)
  = (Raise (ValueError "LlmRequest must contain contents"),
     initial self llm_request).
Proof.
  intros Hc. rewrite greeting_paths. now rewrite Hc.
Qed.

Lemma greeting_empty_contents_rejected_witness :
  outcome (GreetingAgent.generate_content_async
             (initial (Sample.adapter (inr Sample.completion)) Sample.empty_request))
  = Raise (ValueError "LlmRequest must contain contents").
Proof.
  rewrite (greeting_empty_contents_rejected
             (Sample.adapter (inr Sample.completion)) Sample.empty_request).
  - reflexivity.
  - reflexivity.
Defined.

(** [greeting_agent]: for a non-empty turn sequence each of whose turns
    has a parts sequence, the method calls the vendor once, with the
    adapter's model and the flattened messages and with neither a tool list
    nor a tool choice, whatever tools the request carries or lacks (a
    missing tools attribute or a tool that does not convert does no harm
    here). *)
Theorem greeting_call_never_carries_tools
        (self : SambaAdapter) (llm_request : LlmRequest) :
  contents llm_request <> [] ->
  Forall has_parts (contents llm_request) ->
  exists args,
    vendor_calls
      (w_trace (final (GreetingAgent.generate_content_async
                         (initial self llm_request)))) = [args] /\
    ca_model args = _model self /\
    ca_messages args = map message_of (contents llm_request) /\
    ca_tools args = None /\
    ca_tool_choice args = None.
Proof.
  intros Hc Hparts. exists (greeting_create_args_of self llm_request).
  split; [|now repeat split].
  rewrite (greeting_paths_with_parts self llm_request Hc Hparts).
  destruct (chat_completions_create _ _); reflexivity.
Qed.

Lemma greeting_call_never_carries_tools_witness :
  exists args,
    vendor_calls
      (w_trace (final (GreetingAgent.generate_content_async
                         (initial (Sample.adapter (inr Sample.completion))
                                  Sample.request_with_genai_tool))))
    = [args] /\
    ca_tools args = None.
Proof.
  destruct (greeting_call_never_carries_tools
              (Sample.adapter (inr Sample.completion))
              Sample.request_with_genai_tool)
    as (args & Hcalls & _ & _ & Htools & _).
  - discriminate.
  - repeat constructor. discriminate.
  - exists args. split; [exact Hcalls | exact Htools].
Defined.

(** [greeting_agent]: when the vendor call raises [e], the method makes no
    second call, logs "SambaNova call failed" for [e], raises that same
    [e] and yields nothing. *)
Theorem greeting_vendor_failure_propagates
        (self : SambaAdapter) (llm_request : LlmRequest) (e : Exn) :
  contents llm_request <> [] ->
  Forall has_parts (contents llm_request) ->
  chat_completions_create (_client self) (greeting_create_args_of self llm_request)
  = inl e ->
  let r := GreetingAgent.generate_content_async (initial self llm_request) in
  outcome r = Raise e /\
  vendor_calls (w_trace (final r)) = [greeting_create_args_of self llm_request] /\
  log_records (w_trace (final r)) = [EvLogException "SambaNova call failed" e] /\
  yielded (w_trace (final r)) = [].
Proof.
  intros Hc Hparts Hfail r. subst r.
  rewrite (greeting_paths_with_parts self llm_request Hc Hparts).
  rewrite Hfail. now repeat split.
Qed.

Lemma greeting_vendor_failure_propagates_witness :
  outcome (GreetingAgent.generate_content_async
             (initial (Sample.adapter (inl (APIError "401 Unauthorized")))
                      Sample.adk_request))
  = Raise (APIError "401 Unauthorized").
Proof.
  apply (greeting_vendor_failure_propagates
           (Sample.adapter (inl (APIError "401 Unauthorized")))
           Sample.adk_request (APIError "401 Unauthorized")).
  - discriminate.
  - repeat constructor. discriminate.
  - reflexivity.
Defined.

(** [greeting_agent]: when the vendor call returns a completion, the whole
    run is that one vendor call followed by one yield, in this order, and
    nothing else: no log record is written, not even for the tool-call
    entries it drops.  The response has role "model", is not partial, and
    holds the parts of the choices in order. *)
Theorem greeting_success_is_silent
        (self : SambaAdapter) (llm_request : LlmRequest)
        (completion : ChatCompletion) :
  contents llm_request <> [] ->
  Forall has_parts (contents llm_request) ->
  chat_completions_create (_client self) (greeting_create_args_of self llm_request)
  = inr completion ->
  let r := GreetingAgent.generate_content_async (initial self llm_request) in
  outcome r = Ok tt /\
  w_trace (final r)
  = [ EvCreate (greeting_create_args_of self llm_request);
      EvYield
        {| content :=
             {| role := Some "model";
                parts := flat_map greeting_parts_of_choice (choices_of completion) |};
           partial := false |} ] /\
  vendor_calls (w_trace (final r)) = [greeting_create_args_of self llm_request] /\
  log_records (w_trace (final r)) = [] /\
  yielded (w_trace (final r))
  = [ {| content :=
           {| role := Some "model";
              parts := flat_map greeting_parts_of_choice (choices_of completion) |};
         partial := false |} ].
Proof.
  intros Hc Hparts Hok r. subst r.
  rewrite (greeting_paths_with_parts self llm_request Hc Hparts).
  rewrite Hok. now repeat split.
Qed.

Lemma greeting_success_is_silent_witness :
  w_trace (final (GreetingAgent.generate_content_async
                    (initial (Sample.adapter (inr Sample.completion))
                             Sample.adk_request)))
  = [ EvCreate (greeting_create_args_of (Sample.adapter (inr Sample.completion))
                                        Sample.adk_request);
      EvYield
        {| content :=
             {| role := Some "model";
                parts := [Part_text "Hello";
                          Part_function_call {| fc_name := Some "get_current_time";
                                                fc_args := Some [] |}] |};
           partial := false |} ].
Proof.
  destruct (greeting_success_is_silent
              (Sample.adapter (inr Sample.completion))
              Sample.adk_request Sample.completion)
    as (_ & Htrace & _).
  - discriminate.
  - repeat constructor. discriminate.
  - reflexivity.
  - exact Htrace.
Defined.

Lemma greeting_agent_drops_string_arguments_witness :
  returns (GreetingAgent.tool_call_body
             (Sample.tool_call "get_weather" (Have Sample.city_arguments))
             [Part_text "Hello"])
          [Part_text "Hello"] [].
Proof.
  apply (greeting_agent_drops_string_arguments
           (Sample.tool_call "get_weather" (Have Sample.city_arguments))
           {| fn_name := Have "get_weather";
              fn_arguments := Have Sample.city_arguments |}
           Sample.city_arguments);
    reflexivity.
Defined.

(** [greeting_agent]: an entry whose function object has no arguments
    attribute gets the default, an empty dict, and is appended as a
    function-call part under the entry's name. *)
Theorem greeting_missing_arguments_default
        (tc : ToolCall) (f : Function) (parts : list Part) :
  tc_function tc = Have f ->
  fn_arguments f = Missing ->
  returns (GreetingAgent.tool_call_body tc parts)
          (parts ++ [Part_function_call
                       {| fc_name := getattr (fn_name f) (Some EmptyString);
                          fc_args := Some [] |}])
          [].
Proof.
  intros Hf Ha w. rewrite greeting_tool_call_body_returns.
  unfold greeting_part_of_entry. rewrite Hf, Ha.
  unfold entry_name. now destruct (fn_name f).
Qed.

Lemma greeting_missing_arguments_default_witness :
  returns (GreetingAgent.tool_call_body
             (Sample.tool_call "get_current_time" Missing) [])
          [Part_function_call {| fc_name := Some "get_current_time";
                                 fc_args := Some [] |}]
          [].
Proof.
  apply (greeting_missing_arguments_default
           (Sample.tool_call "get_current_time" Missing)
           {| fn_name := Have "get_current_time"; fn_arguments := Missing |} []);
    reflexivity.
Defined.

Lemma parts_agree_without_tool_calls
      (json_loads : string -> option json) (completion : ChatCompletion) :
  without_tool_calls completion ->
  parts_of_completion json_loads completion = greeting_parts_of_completion completion /\
  logs_of_completion json_loads completion = [].
Proof.
  unfold without_tool_calls, parts_of_completion, greeting_parts_of_completion,
    logs_of_completion.
  induction (choices_of completion) as [|c cs IH]; intros H; simpl; [now split|].
  destruct IH as [IH1 IH2].
  { intros choice msg Hin. apply H. now right. }
  rewrite IH1, IH2.
  unfold parts_of_choice, greeting_parts_of_choice, logs_of_choice.
  destruct (message_of_choice c) as [msg|] eqn:Em; [|now split].
  rewrite (H c msg (or_introl eq_refl) Em). simpl. now split.
Qed.

(** On a request without a [tools] attribute, as the framework's
    [LlmRequest] is, the two adapters part ways: [multi_tool_agent] raises
    [AttributeError] before any vendor call, while [greeting_agent] makes
    its vendor call. *)
Theorem adapters_differ_without_tools_attribute
        (json_loads : string -> option json)
        (self : SambaAdapter) (llm_request : LlmRequest) :
  contents llm_request <> [] ->
  Forall has_parts (contents llm_request) ->
  tools llm_request = Missing ->
  MultiToolAgent.generate_content_async json_loads (initial self llm_request)
  = (Raise (AttributeError "'LlmRequest' object has no attribute 'tools'"),
     initial self llm_request) /\
  vendor_calls
    (w_trace (final (GreetingAgent.generate_content_async
                       (initial self llm_request))))
  = [greeting_create_args_of self llm_request].
Proof.
  intros Hc Hparts Htools. split.
  - rewrite generate_content_async_paths.
    destruct (contents llm_request) as [|c cs] eqn:Ec; [congruence|].
    unfold prepared_args. rewrite Ec, (messages_of_with_parts _ Hparts).
    unfold api_tools_of. now rewrite Htools.
  - rewrite (greeting_paths_with_parts self llm_request Hc Hparts).
    destruct (chat_completions_create _ _); reflexivity.
Qed.

Lemma adapters_differ_without_tools_attribute_witness :
  outcome (MultiToolAgent.generate_content_async JsonLite.json_loads
             (initial (Sample.adapter (inr Sample.completion)) Sample.adk_request))
  = Raise (AttributeError "'LlmRequest' object has no attribute 'tools'") /\
  vendor_calls
    (w_trace (final (GreetingAgent.generate_content_async
                       (initial (Sample.adapter (inr Sample.completion))
                                Sample.adk_request))))
  = [greeting_create_args_of (Sample.adapter (inr Sample.completion))
                             Sample.adk_request].
Proof.
  destruct (adapters_differ_without_tools_attribute JsonLite.json_loads
              (Sample.adapter (inr Sample.completion)) Sample.adk_request)
    as (Hmulti & Hgreeting).
  - discriminate.
  - repeat constructor. discriminate.
  - reflexivity.
  - split; [now rewrite Hmulti | exact Hgreeting].
Defined.

(** On a request object that does carry a [tools] attribute, [None] or an
    empty list, and whose vendor answer has no tool-call entries,
    [multi_tool_agent] behaves exactly as [greeting_agent]: the same
    outcome, the same vendor call, the same log records, the same yielded
    response. *)
Theorem adapters_agree_on_empty_tools_attribute
        (json_loads : string -> option json)
        (self : SambaAdapter) (llm_request : LlmRequest) :
  tools llm_request = IsNone \/ tools llm_request = Have [] ->
  (forall completion,
      chat_completions_create (_client self) (greeting_create_args_of self llm_request)
      = inr completion ->
      without_tool_calls completion) ->
  MultiToolAgent.generate_content_async json_loads (initial self llm_request)
  = GreetingAgent.generate_content_async (initial self llm_request).
Proof.
  intros Ht Hresp.
  rewrite generate_content_async_paths, greeting_paths.
  destruct (contents llm_request) as [|c cs] eqn:Ec; [reflexivity|].
  unfold prepared_args. rewrite Ec.
  assert (Hargs : api_tools_of llm_request = inr []).
  { unfold api_tools_of. destruct Ht as [-> | ->]; reflexivity. }
  rewrite Hargs.
  unfold greeting_create_args_of in Hresp. rewrite Ec in Hresp.
  unfold messages_of in *.
  destruct (all_have_parts (c :: cs)); [|reflexivity].
  change (MultiToolAgent.call_samba self (map message_of (c :: cs)) [])
    with (GreetingAgent.call_samba self (map message_of (c :: cs))).
  destruct (chat_completions_create (_client self)
              (GreetingAgent.call_samba self (map message_of (c :: cs))))
    as [e|completion]; [reflexivity|].
  destruct (parts_agree_without_tool_calls json_loads completion
              (Hresp completion eq_refl)) as [Hp Hl].
  unfold response_of, greeting_response_of. now rewrite Hp, Hl.
Qed.

Lemma adapters_agree_on_empty_tools_attribute_witness :
  MultiToolAgent.generate_content_async JsonLite.json_loads
    (initial
       (Sample.adapter
          (inr {| cc_choices :=
                    Have [ {| ch_message :=
                                Have {| cm_content := Have "Hello";
                                        cm_tool_calls := Have [] |} |};
                           {| ch_message := Missing |} ] |}))
       Sample.request_without_tools)
  = GreetingAgent.generate_content_async
      (initial
         (Sample.adapter
            (inr {| cc_choices :=
                      Have [ {| ch_message :=
                                  Have {| cm_content := Have "Hello";
                                          cm_tool_calls := Have [] |} |};
                             {| ch_message := Missing |} ] |}))
         Sample.request_without_tools).
Proof.
  apply (adapters_agree_on_empty_tools_attribute JsonLite.json_loads).
  - left. reflexivity.
  - intros completion Hc. simpl in Hc. injection Hc as <-.
    intros choice msg Hin Hm. simpl in Hin.
    destruct Hin as [<-|[<-|[]]]; simpl in Hm.
    + injection Hm as <-. reflexivity.
    + discriminate Hm.
Defined.

(** [greeting_agent] never writes to the request or to the adapter. *)
Theorem greeting_request_and_adapter_unchanged (w : World) :
  let w' := final (GreetingAgent.generate_content_async w) in
  w_request w' = w_request w /\ w_self w' = w_self w.
Proof.
  intros w'. subst w'. unfold final.
  revert w. change (preserves_objects GreetingAgent.generate_content_async).
  unfold GreetingAgent.generate_content_async.
  apply preserves_bind; [apply preserves_get_request | intros llm_request].
  apply preserves_bind; [apply preserves_get_self | intros self].
  destruct (negb (truthy_list (contents llm_request))); [apply preserves_raise|].
  apply preserves_bind.
  { apply preserves_for_each. intros c s.
    apply preserves_bind; [apply preserves_iterate | intros ?; apply preserves_ret]. }
  intros messages. apply preserves_bind.
  { apply preserves_try; [apply preserves_to_thread_create|].
    intros e. apply preserves_bind; [apply preserves_emit | intros _].
    apply preserves_raise. }
  intros completion. apply preserves_bind; [|intros ps; apply preserves_emit].
  apply preserves_for_each. intros choice ps.
  unfold GreetingAgent.choice_body.
  destruct (getattr (ch_message choice) None) as [msg|]; [|apply preserves_ret].
  apply preserves_bind.
  { destruct (truthy_str (getattr (cm_content msg) None)); [|apply preserves_ret].
    apply preserves_try; [|intros _; apply preserves_ret].
    apply preserves_bind; [apply preserves_ret | intros p; apply preserves_ret]. }
  intros ps'. destruct (hasattr (cm_tool_calls msg)); [|apply preserves_ret].
  apply preserves_for_each. intros tc qs.
  unfold GreetingAgent.tool_call_body.
  apply preserves_try; [|intros _; apply preserves_ret].
  destruct (getattr (tc_function tc) None) as [f|]; [|apply preserves_ret].
  apply preserves_bind; [apply preserves_FunctionCall_new|].
  intros fc. apply preserves_ret.
Qed.

(* ===================================================================== *)
(** ** The court listing ([pickleball_scheduler/tools.py])                *)
(* ===================================================================== *)

Lemma prefix_empty (t : string) : String.prefix EmptyString t = true.
Proof. now destruct t. Qed.

Lemma prefix_trans (a b t : string) :
  String.prefix a b = true -> String.prefix b t = true -> String.prefix a t = true.
Proof.
  revert b t. induction a as [|c a IH]; intros b t Hab Hbt.
  - apply prefix_empty.
  - destruct b as [|c' b]; [discriminate Hab|].
    destruct t as [|c'' t]; [discriminate Hbt|].
    simpl in *.
    destruct (Ascii.ascii_dec c c') as [->|]; [|discriminate Hab].
    destruct (Ascii.ascii_dec c' c'') as [->|]; [|discriminate Hbt].
    destruct (Ascii.ascii_dec c'' c'') as [_|Hne]; [|now destruct Hne].
    now apply (IH b t).
Qed.

Lemma inner_slot_loop (wanted : string -> bool) (court : string)
      (times : list string) (acc : list string) :
  fold_left (fun available_slots t =>
               if wanted t
               then available_slots ++ [PickleballTools.slot_line court t]
               else available_slots) times acc
  = acc ++ map (PickleballTools.slot_line court) (filter wanted times).
Proof.
  revert acc. induction times as [|t times IH]; intros acc; simpl.
  - now rewrite app_nil_r.
  - rewrite IH. destruct (wanted t); simpl; [now rewrite <- app_assoc | reflexivity].
Qed.

Lemma outer_slot_loop (wanted : string -> bool)
      (courts : list (string * list string)) (acc : list string) :
  fold_left
    (fun available_slots (entry : string * list string) =>
       let (court, times) := entry in
       fold_left (fun available_slots t =>
                    if wanted t
                    then available_slots ++ [PickleballTools.slot_line court t]
                    else available_slots) times available_slots)
    courts acc
  = acc ++ flat_map (fun entry : string * list string =>
                       map (PickleballTools.slot_line (fst entry))
                           (filter wanted (snd entry))) courts.
Proof.
  revert acc. induction courts as [|[court times] courts IH]; intros acc; simpl.
  - now rewrite app_nil_r.
  - rewrite IH, inner_slot_loop. now rewrite <- app_assoc.
Qed.

Lemma collect_slots_spec (start_time : option string) :
  PickleballTools.collect_slots start_time
  = flat_map (fun entry : string * list string =>
                map (PickleballTools.slot_line (fst entry))
                    (filter (PickleballTools.slot_wanted start_time) (snd entry)))
             PickleballTools.mock_courts.
Proof.
  unfold PickleballTools.collect_slots.
  exact (outer_slot_loop (PickleballTools.slot_wanted start_time)
                         PickleballTools.mock_courts []).
Qed.

Lemma in_collect_slots (start_time : option string) (line : string) :
  In line (PickleballTools.collect_slots start_time) <->
  exists court times t,
    In (court, times) PickleballTools.mock_courts /\ In t times /\
    PickleballTools.slot_wanted start_time t = true /\
    line = PickleballTools.slot_line court t.
Proof.
  rewrite collect_slots_spec, in_flat_map. split.
  - intros ([court times] & Hc & Hl). simpl in Hl.
    apply in_map_iff in Hl. destruct Hl as (t & <- & Ht).
    apply filter_In in Ht. destruct Ht as [Ht Hw].
    now exists court, times, t.
  - intros (court & times & t & Hc & Ht & Hw & ->).
    exists (court, times). split; [exact Hc|]. simpl.
    apply in_map. apply filter_In. now split.
Qed.

(** Without a start time, or with one that has nothing before its first
    colon, every mock slot is listed, court by court and time by time, for
    any date; the answer is never that no courts are available. *)
Theorem no_start_hour_lists_every_slot (date : string) (start_time : option string) :
  (forall s, start_time = Some s -> Str.before_colon s = EmptyString) ->
  snd (PickleballTools.list_courts_availability date start_time)
  = ("Available courts on " ++ date ++ ":" ++ Str.nl
       ++ String.concat Str.nl
            [ PickleballTools.slot_line "court_1" "15:00";
              PickleballTools.slot_line "court_1" "16:00";
              PickleballTools.slot_line "court_1" "17:00";
              PickleballTools.slot_line "court_1" "18:00";
              PickleballTools.slot_line "court_2" "16:30";
              PickleballTools.slot_line "court_2" "17:30";
              PickleballTools.slot_line "court_2" "18:30";
              PickleballTools.slot_line "court_3" "15:00";
              PickleballTools.slot_line "court_3" "18:00" ])%string.
Proof.
  intros H. unfold PickleballTools.list_courts_availability.
  rewrite collect_slots_spec.
  assert (Hw : forall t, PickleballTools.slot_wanted start_time t = true).
  { intros t. destruct start_time as [s|]; [|reflexivity].
    simpl. unfold Str.startswith. rewrite (H s eq_refl). apply prefix_empty. }
  unfold PickleballTools.mock_courts. cbn [flat_map snd fst filter].
  rewrite !Hw. reflexivity.
Qed.

Lemma no_start_hour_lists_every_slot_witness :
  snd (PickleballTools.list_courts_availability "2025-06-06" (Some ":30"))
  = snd (PickleballTools.list_courts_availability "2025-06-06" None).
Proof.
  rewrite (no_start_hour_lists_every_slot "2025-06-06" (Some ":30")).
  - rewrite (no_start_hour_lists_every_slot "2025-06-06" None).
    + reflexivity.
    + intros s Hs. discriminate Hs.
  - intros s Hs. injection Hs as <-. reflexivity.
Defined.

(** The answer is that no courts are available exactly when no mock time
    starts with the text before the first colon of the start time;
    otherwise it is the heading for the date followed by the lines of the
    selected slots. *)
Theorem no_courts_iff_nothing_selected (date : string) (start_time : option string) :
  (snd (PickleballTools.list_courts_availability date start_time)
   = ("No courts are available on " ++ date ++ " around "
        ++ PickleballTools.format_opt start_time ++ ".")%string
   <->
   forall court times t,
     In (court, times) PickleballTools.mock_courts -> In t times ->
     PickleballTools.slot_wanted start_time t = false) /\
  (PickleballTools.collect_slots start_time <> [] ->
   snd (PickleballTools.list_courts_availability date start_time)
   = ("Available courts on " ++ date ++ ":" ++ Str.nl
        ++ String.concat Str.nl (PickleballTools.collect_slots start_time))%string).
Proof.
  unfold PickleballTools.list_courts_availability.
  destruct (PickleballTools.collect_slots start_time) as [|l ls] eqn:E; simpl.
  - split; [|congruence]. split; [|reflexivity].
    intros _ court times t Hc Ht.
    destruct (PickleballTools.slot_wanted start_time t) eqn:Hw; [|reflexivity].
    assert (Hin : In (PickleballTools.slot_line court t)
                     (PickleballTools.collect_slots start_time)).
    { apply in_collect_slots. now exists court, times, t. }
    rewrite E in Hin. destruct Hin.
  - split; [|reflexivity]. split; [intros H; discriminate H|].
    intros Hnone. exfalso.
    assert (Hin : In l (PickleballTools.collect_slots start_time))
      by (rewrite E; now left).
    apply in_collect_slots in Hin.
    destruct Hin as (court & times & t & Hc & Ht & Hw & _).
    rewrite (Hnone court times t Hc Ht) in Hw. discriminate Hw.
Qed.

(** A start time whose hour text is a prefix of another's selects at least
    the slots the other selects: [1] lists what [18] lists, and [18:00]
    lists what [18:30] lists and the other way round. *)
Theorem shorter_hour_prefix_lists_more (s1 s2 : string) :
  String.prefix (Str.before_colon s1) (Str.before_colon s2) = true ->
  incl (PickleballTools.collect_slots (Some s2))
       (PickleballTools.collect_slots (Some s1)).
Proof.
  intros Hp line Hin.
  apply in_collect_slots in Hin.
  destruct Hin as (court & times & t & Hc & Ht & Hw & ->).
  apply in_collect_slots. exists court, times, t.
  repeat split; try assumption.
  simpl in *. unfold Str.startswith in *.
  now apply (prefix_trans _ (Str.before_colon s2)).
Qed.

Lemma shorter_hour_prefix_lists_more_witness :
  incl (PickleballTools.collect_slots (Some "18:30"))
       (PickleballTools.collect_slots (Some "1")) /\
  incl (PickleballTools.collect_slots (Some "18:30"))
       (PickleballTools.collect_slots (Some "18:00")).
Proof.
  split.
  - apply (shorter_hour_prefix_lists_more "1" "18:30"). reflexivity.
  - apply (shorter_hour_prefix_lists_more "18:00" "18:30"). reflexivity.
Defined.

Lemma no_courts_iff_nothing_selected_witness :
  snd (PickleballTools.list_courts_availability "2025-06-06" (Some "19:00"))
  = "No courts are available on 2025-06-06 around 19:00.".
Proof.
  apply (proj1 (no_courts_iff_nothing_selected "2025-06-06" (Some "19:00"))).
  intros court times t Hc Ht. simpl in Hc.
  destruct Hc as [Hc|[Hc|[Hc|[]]]]; injection Hc as <- <-; simpl in Ht;
    repeat (destruct Ht as [<-|Ht]; [reflexivity|]); destruct Ht.
Defined.

(* ===================================================================== *)
(** ** The host agent ([pickleball_scheduler/host_agent.py])              *)
(* ===================================================================== *)

Section HostAgent.

Import PickleballHost.

Lemma append_assoc_string (a b c : string) :
  ((a ++ b) ++ c)%string = (a ++ b ++ c)%string.
Proof.
  induction a as [|x a IH]; simpl; [reflexivity | now rewrite IH].
Qed.

Lemma dict_has_keys (k : string) (d : AgentsDict) :
  dict_has k d = true <-> In k (keys d).
Proof.
  unfold dict_has, keys. rewrite existsb_exists, in_map_iff.
  split; intros (kv & H1 & H2).
  - apply String.eqb_eq in H2. now exists kv.
  - exists kv. split; [exact H2|]. now apply String.eqb_eq.
Qed.

Lemma keys_dict_set (k : string) (v : AgentInfo) (d : AgentsDict) :
  keys (dict_set k v d) = if dict_has k d then keys d else keys d ++ [k].
Proof.
  induction d as [|[k' v'] d IH]; simpl; [reflexivity|].
  unfold dict_has in *. simpl.
  destruct (String.eqb k' k) eqn:E; simpl.
  - apply String.eqb_eq in E. now subst.
  - rewrite IH. now destruct (existsb _ d).
Qed.

Lemma dict_has_dict_set (n k : string) (v : AgentInfo) (d : AgentsDict) :
  dict_has n (dict_set k v d) = String.eqb k n || dict_has n d.
Proof.
  induction d as [|[k' v'] d IH]; simpl.
  - unfold dict_has. simpl. now rewrite orb_false_r.
  - unfold dict_has in *. destruct (String.eqb k' k) eqn:E; simpl.
    + apply String.eqb_eq in E. subst k'.
      destruct (String.eqb k n); reflexivity.
    + rewrite IH. destruct (String.eqb k' n), (String.eqb k n); reflexivity.
Qed.

Lemma dict_get_dict_set_same (k : string) (v : AgentInfo) (d : AgentsDict) :
  dict_get k (dict_set k v d) = Some v.
Proof.
  unfold dict_get. induction d as [|[k' v'] d IH]; simpl.
  - now rewrite String.eqb_refl.
  - destruct (String.eqb k' k) eqn:E; simpl.
    + now rewrite String.eqb_refl.
    + rewrite E. exact IH.
Qed.

Lemma dict_get_dict_set_other (n k : string) (v : AgentInfo) (d : AgentsDict) :
  k <> n -> dict_get n (dict_set k v d) = dict_get n d.
Proof.
  intros Hne. apply String.eqb_neq in Hne.
  unfold dict_get. induction d as [|[k' v'] d IH]; simpl.
  - now rewrite Hne.
  - destruct (String.eqb k' k) eqn:E; simpl.
    + apply String.eqb_eq in E. subst k'. now rewrite Hne.
    + destruct (String.eqb k' n); [reflexivity | exact IH].
Qed.

Lemma agent_info_for_name (url : string) (info : AgentInfo) :
  agent_info_for url = Some info ->
  In (info_name info) known_names /\ info_url info = url.
Proof.
  unfold agent_info_for, known_names.
  destruct (Str.str_in "8001" url); [intros H; injection H as <-; simpl; auto|].
  destruct (Str.str_in "8002" url); [intros H; injection H as <-; simpl; auto|].
  destruct (Str.str_in "8003" url); [intros H; injection H as <-; simpl; auto|].
  discriminate.
Qed.

Lemma unmarked_iff (url : string) :
  unmarked url <-> agent_info_for url = None.
Proof.
  unfold unmarked, agent_info_for.
  destruct (Str.str_in "8001" url), (Str.str_in "8002" url),
    (Str.str_in "8003" url); split; intros H; try discriminate H;
    try (destruct H as (H1 & H2 & H3); discriminate); auto.
Qed.

(** The agents after the loop do not depend on what was printed. *)
Lemma agents_after_loop (urls : list string) (a : AgentsDict) (out : list string) :
  fst (fold_left register_url urls (a, out))
  = fold_left (fun a url =>
                 match agent_info_for url with
                 | Some info => dict_set (info_name info) info a
                 | None => a
                 end) urls a.
Proof.
  revert a out. induction urls as [|u urls IH]; intros a out; simpl; [reflexivity|].
  destruct (agent_info_for u) as [info|]; apply IH.
Qed.

Lemma host_of_agents (urls : list string) :
  agents (host_of urls)
  = fold_left (fun a url =>
                 match agent_info_for url with
                 | Some info => dict_set (info_name info) info a
                 | None => a
                 end) urls [].
Proof.
  unfold host_of, __init__, _prepare_remote_agents. cbn [remote_urls agents].
  rewrite <- (agents_after_loop urls []
                (["Host Agent Initializing..."]
                   ++ ["Preparing connections to remote agents..."])).
  destruct (fold_left register_url urls _) as [a out]. reflexivity.
Qed.

Lemma registration_invariant (urls : list string) (a : AgentsDict) :
  NoDup (keys a) /\ incl (keys a) known_names /\
  Forall (fun kv => info_name (snd kv) = fst kv) a ->
  let a' := fold_left (fun a url =>
                         match agent_info_for url with
                         | Some info => dict_set (info_name info) info a
                         | None => a
                         end) urls a in
  NoDup (keys a') /\ incl (keys a') known_names /\
  Forall (fun kv => info_name (snd kv) = fst kv) a'.
Proof.
  revert a. induction urls as [|u urls IH]; intros a Ha; simpl; [exact Ha|].
  apply IH. destruct (agent_info_for u) as [info|] eqn:Eu; [|exact Ha].
  destruct Ha as (Hnd & Hincl & Hall).
  destruct (agent_info_for_name u info Eu) as [Hknown _].
  rewrite keys_dict_set. split; [|split].
  - destruct (dict_has (info_name info) a) eqn:Eh; [exact Hnd|].
    apply NoDup_app; [exact Hnd | repeat constructor; intros [] |].
    intros x Hx [<-|[]].
    apply dict_has_keys in Hx. congruence.
  - destruct (dict_has (info_name info) a); [exact Hincl|].
    apply incl_app; [exact Hincl|]. intros x [<-|[]]. exact Hknown.
  - clear Hnd Hincl. induction a as [|[k v] a IHa]; simpl.
    + repeat constructor.
    + inversion Hall as [|? ? Hkv Hrest]; subst.
      destruct (String.eqb k (info_name info)); constructor; auto.
Qed.

(** However many URLs the host is given, it registers at most three
    agents, under distinct names taken from Alice_LangGraph, Bob_CrewAI
    and Charlie_ADK, each card stored under its own name. *)
Theorem registered_agents_are_the_known_ones (urls : list string) :
  NoDup (keys (agents (host_of urls))) /\
  incl (keys (agents (host_of urls))) known_names /\
  List.length (agents (host_of urls)) <= 3 /\
  Forall (fun kv => info_name (snd kv) = fst kv) (agents (host_of urls)).
Proof.
  rewrite host_of_agents.
  destruct (registration_invariant urls []) as (Hnd & Hincl & Hall).
  { split; [constructor|]. split; [intros x []|constructor]. }
  split; [exact Hnd|]. split; [exact Hincl|]. split; [|exact Hall].
  pose proof (NoDup_incl_length Hnd Hincl) as Hlen.
  unfold keys in Hlen. now rewrite length_map in Hlen.
Qed.

Lemma loop_skips_unmarked (urls1 urls2 : list string) (u : string)
      (st : AgentsDict * list string) :
  unmarked u ->
  fold_left register_url (urls1 ++ u :: urls2) st
  = fold_left register_url (urls1 ++ urls2) st.
Proof.
  intros Hu. apply unmarked_iff in Hu.
  rewrite !fold_left_app. simpl.
  unfold register_url at 2.
  destruct (fold_left register_url urls1 st) as [a out]. now rewrite Hu.
Qed.

(** A URL with none of the markers 8001, 8002, 8003 changes nothing but
    the stored URL list: the agents, the agent's instructions and tools and
    the printed lines are those of the construction without it. *)
Theorem unmarked_url_is_ignored (urls1 urls2 : list string) (u : string) :
  unmarked u ->
  agents (host_of (urls1 ++ u :: urls2)) = agents (host_of (urls1 ++ urls2)) /\
  agent_of (urls1 ++ u :: urls2) = agent_of (urls1 ++ urls2) /\
  printed_by (urls1 ++ u :: urls2) = printed_by (urls1 ++ urls2).
Proof.
  intros Hu.
  unfold host_of, agent_of, printed_by, __init__, _prepare_remote_agents.
  cbn [remote_urls agents].
  rewrite (loop_skips_unmarked urls1 urls2 u _ Hu).
  destruct (fold_left register_url (urls1 ++ urls2) _) as [a out].
  now repeat split.
Qed.

Lemma unmarked_url_is_ignored_witness :
  printed_by ["http://localhost:8001"; "http://localhost:9000";
              "http://localhost:8003"]
  = printed_by ["http://localhost:8001"; "http://localhost:8003"].
Proof.
  apply (unmarked_url_is_ignored ["http://localhost:8001"]
           ["http://localhost:8003"] "http://localhost:9000").
  now repeat split.
Defined.

Lemma registered_after_loop (name : string) (urls : list string) (a : AgentsDict) :
  dict_has name
    (fold_left (fun a url =>
                  match agent_info_for url with
                  | Some info => dict_set (info_name info) info a
                  | None => a
                  end) urls a) = true
  <-> dict_has name a = true \/
      exists url, In url urls /\ name_for url = Some name.
Proof.
  revert a. induction urls as [|u urls IH]; intros a; simpl.
  - split; [auto | intros [H|(url & [] & _)]; exact H].
  - rewrite IH. unfold name_for at 2.
    destruct (agent_info_for u) as [info|] eqn:Eu.
    + rewrite dict_has_dict_set. split.
      * intros [H|(url & Hin & Hn)].
        -- apply orb_true_iff in H. destruct H as [H|H]; [|now left].
           apply String.eqb_eq in H. right. exists u. split; [now left|].
           unfold name_for. rewrite Eu. now subst.
        -- right. exists url. split; [now right | exact Hn].
      * intros [H|(url & [<-|Hin] & Hn)].
        -- left. rewrite H. apply orb_true_r.
        -- left. unfold name_for in Hn. rewrite Eu in Hn. injection Hn as <-.
           now rewrite String.eqb_refl.
        -- right. now exists url.
    + split.
      * intros [H|(url & Hin & Hn)]; [now left|].
        right. exists url. split; [now right | exact Hn].
      * intros [H|(url & [<-|Hin] & Hn)]; [now left | |].
        -- unfold name_for in Hn. rewrite Eu in Hn. discriminate Hn.
        -- right. now exists url.
Qed.

(** An agent is registered exactly when some URL of the list is classified
    to its name: the first of the markers 8001, 8002, 8003 (in this order)
    that the URL contains decides. *)
Theorem registered_iff_some_url_matches (urls : list string) (name : string) :
  dict_has name (agents (host_of urls)) = true
  <-> exists url, In url urls /\ name_for url = Some name.
Proof.
  rewrite host_of_agents, registered_after_loop.
  split; [intros [H|H]; [discriminate H | exact H] | now right].
Qed.

Lemma card_kept_by_other_urls (name : string) (urls : list string)
      (a : AgentsDict) :
  (forall url, In url urls -> name_for url <> Some name) ->
  dict_get name
    (fold_left (fun a url =>
                  match agent_info_for url with
                  | Some info => dict_set (info_name info) info a
                  | None => a
                  end) urls a)
  = dict_get name a.
Proof.
  revert a. induction urls as [|u urls IH]; intros a H; simpl; [reflexivity|].
  rewrite IH by (intros url Hin; apply H; now right).
  specialize (H u (or_introl eq_refl)). unfold name_for in H.
  destruct (agent_info_for u) as [info|]; [|reflexivity].
  apply dict_get_dict_set_other. congruence.
Qed.

(** When several URLs are classified to one name, the card kept is that of
    the last of them: it carries that URL. *)
Theorem last_matching_url_wins (urls1 urls2 : list string) (u : string)
        (info : AgentInfo) :
  agent_info_for u = Some info ->
  (forall url, In url urls2 -> name_for url <> Some (info_name info)) ->
  dict_get (info_name info) (agents (host_of (urls1 ++ u :: urls2))) = Some info /\
  info_url info = u.
Proof.
  intros Hu Hrest. split; [|now apply agent_info_for_name].
  rewrite host_of_agents, fold_left_app. simpl. rewrite Hu.
  rewrite card_kept_by_other_urls by exact Hrest.
  apply dict_get_dict_set_same.
Qed.

Lemma last_matching_url_wins_witness :
  exists info,
    dict_get "Alice_LangGraph"
      (agents (host_of ["http://localhost:8001"; "http://alice.example:8001";
                        "http://localhost:8002"])) = Some info /\
    info_url info = "http://alice.example:8001".
Proof.
  eexists.
  apply (last_matching_url_wins ["http://localhost:8001"]
           ["http://localhost:8002"] "http://alice.example:8001" _ eq_refl).
  intros url [<-|[]]. discriminate.
Defined.

End HostAgent.

Section HostMessages.

Import PickleballHost.

(** Whatever URLs the host was built from, a message to a name other than
    Alice_LangGraph, Bob_CrewAI and Charlie_ADK is refused: the attempt is
    printed, no connection is simulated, and the answer is the error that
    lists the registered names. *)
Theorem only_known_names_are_reachable
        (urls : list string) (friend_name message : string) :
  ~ In friend_name known_names ->
  send_message_to_friend (host_of urls) friend_name message
  = ([("[*] Host Agent: Attempting to send message to '" ++ friend_name
         ++ "': '" ++ message ++ "'")%string],
     ("Error: No agent found with the name '" ++ friend_name
        ++ "'. Available agents are: "
        ++ Str.repr_list (keys (agents (host_of urls))))%string).
Proof.
  intros Hunknown. unfold send_message_to_friend.
  destruct (dict_has friend_name (agents (host_of urls))) eqn:Eh; [|reflexivity].
  exfalso. apply Hunknown.
  destruct (registered_agents_are_the_known_ones urls) as (_ & Hincl & _).
  apply Hincl. now apply dict_has_keys.
Qed.

Lemma only_known_names_are_reachable_witness :
  snd (send_message_to_friend
         (host_of ["http://localhost:8001"; "http://localhost:8002"])
         "Dana" "Are you free on Friday?")
  = "Error: No agent found with the name 'Dana'. Available agents are: ['Alice_LangGraph', 'Bob_CrewAI']".
Proof.
  rewrite (only_known_names_are_reachable
             ["http://localhost:8001"; "http://localhost:8002"]
             "Dana" "Are you free on Friday?").
  - reflexivity.
  - intros [H|[H|[H|[]]]]; discriminate H.
Defined.

(** A registered agent is answered for after a simulated connection: Bob
    always with his canned reply, whatever the message; Charlie always
    with the acknowledgement that echoes the message; Alice with her
    canned reply or with the acknowledgement.  The error is never the
    answer. *)
Theorem registered_agents_reply
        (urls : list string) (friend_name message : string) :
  dict_has friend_name (agents (host_of urls)) = true ->
  fst (send_message_to_friend (host_of urls) friend_name message)
  = [("[*] Host Agent: Attempting to send message to '" ++ friend_name
        ++ "': '" ++ message ++ "'")%string;
     ("  - Connection to " ++ friend_name ++ " established (simulated).")%string] /\
  let reply := snd (send_message_to_friend (host_of urls) friend_name message) in
  (friend_name = "Alice_LangGraph" /\
   (reply = alice_reply \/ reply = acknowledgement friend_name message)) \/
  (friend_name = "Bob_CrewAI" /\ reply = bob_reply) \/
  (friend_name = "Charlie_ADK" /\ reply = acknowledgement friend_name message).
Proof.
  intros Hreg.
  assert (Hknown : In friend_name known_names).
  { destruct (registered_agents_are_the_known_ones urls) as (_ & Hincl & _).
    apply Hincl. now apply dict_has_keys. }
  unfold send_message_to_friend. rewrite Hreg. cbn [negb].
  split.
  - destruct (_ && _); [reflexivity|]. destruct (Str.str_in "bob" _); reflexivity.
  - destruct Hknown as [<-|[<-|[<-|[]]]].
    + left. split; [reflexivity|].
      replace (Str.str_in "alice" (Str.lower "Alice_LangGraph")) with true
        by reflexivity.
      replace (Str.str_in "bob" (Str.lower "Alice_LangGraph")) with false
        by reflexivity.
      rewrite andb_true_r.
      destruct (Str.str_in "friday" (Str.lower message)); [now left | now right].
    + right. left. split; [reflexivity|].
      replace (Str.str_in "alice" (Str.lower "Bob_CrewAI")) with false
        by reflexivity.
      replace (Str.str_in "bob" (Str.lower "Bob_CrewAI")) with true
        by reflexivity.
      now rewrite andb_false_r.
    + right. right. split; [reflexivity|].
      replace (Str.str_in "alice" (Str.lower "Charlie_ADK")) with false
        by reflexivity.
      replace (Str.str_in "bob" (Str.lower "Charlie_ADK")) with false
        by reflexivity.
      now rewrite andb_false_r.
Qed.

Lemma registered_agents_reply_witness :
  snd (send_message_to_friend
         (host_of ["http://localhost:8001"; "http://localhost:8002"])
         "Bob_CrewAI" "Can you play on Sunday?")
  = bob_reply.
Proof.
  destruct (registered_agents_reply
              ["http://localhost:8001"; "http://localhost:8002"]
              "Bob_CrewAI" "Can you play on Sunday?" eq_refl)
    as [_ [[H _]|[[_ H]|[H _]]]].
  - discriminate H.
  - exact H.
  - discriminate H.
Defined.

Lemma prompt_loop (l : AgentsDict) (acc : string) :
  fold_left (fun p kv => (p ++ agent_line kv)%string) l acc
  = (acc ++ concat_all (map agent_line l))%string.
Proof.
  revert acc. induction l as [|kv l IH]; intros acc; simpl.
  - now rewrite append_empty_r.
  - rewrite IH. apply append_assoc_string.
Qed.

Lemma no_agents_iff_all_unmarked (urls : list string) :
  agents (host_of urls) = [] <-> Forall unmarked urls.
Proof.
  split.
  - intros Hnil. apply Forall_forall. intros u Hu. apply unmarked_iff.
    destruct (agent_info_for u) as [info|] eqn:Eu; [|reflexivity].
    assert (H : dict_has (info_name info) (agents (host_of urls)) = true).
    { apply registered_iff_some_url_matches. exists u. split; [exact Hu|].
      unfold name_for. now rewrite Eu. }
    rewrite Hnil in H. discriminate H.
  - intros Hall. rewrite host_of_agents.
    induction Hall as [|u urls Hu Hall IH]; simpl; [reflexivity|].
    apply unmarked_iff in Hu. now rewrite Hu.
Qed.

(** The instructions of the agent the host builds are the core
    instructions, the header of the agent list and then one line per
    registered agent, in the order of registration; when no URL carries a
    marker, and only then, the list is replaced by the sentence that no
    remote agents are connected. *)
Theorem system_prompt_lists_registered_agents (urls : list string) :
  (Forall unmarked urls ->
   instructions (agent_of urls)
   = (core_instructions ++ agents_header
        ++ "No remote agents are currently connected." ++ Str.nl)%string) /\
  (~ Forall unmarked urls ->
   agents (host_of urls) <> [] /\
   instructions (agent_of urls)
   = (core_instructions ++ agents_header
        ++ concat_all (map agent_line (agents (host_of urls))))%string).
Proof.
  assert (Hprompt : instructions (agent_of urls)
                    = _build_system_prompt (host_of urls)).
  { unfold agent_of, host_of, __init__.
    destruct (_prepare_remote_agents _ _) as [self out]. reflexivity. }
  rewrite Hprompt. unfold _build_system_prompt, agents_header.
  split; intros H.
  - apply no_agents_iff_all_unmarked in H. rewrite H. reflexivity.
  - assert (Hne : agents (host_of urls) <> []).
    { intros Hnil. apply H. now apply no_agents_iff_all_unmarked. }
    split; [exact Hne|].
    destruct (agents (host_of urls)) as [|kv l]; [congruence|].
    cbn [truthy_list negb]. now rewrite prompt_loop.
Qed.

Lemma system_prompt_lists_registered_agents_witness :
  instructions (agent_of ["http://localhost:9000"; "https://example.org"])
  = (core_instructions ++ agents_header
       ++ "No remote agents are currently connected." ++ Str.nl)%string.
Proof.
  apply (proj1 (system_prompt_lists_registered_agents
                  ["http://localhost:9000"; "https://example.org"])).
  repeat constructor.
Defined.

End HostMessages.

(* ===================================================================== *)
(** ** Requests whose turns or tools are not what the loops expect        *)
(* ===================================================================== *)

(** A request with a non-empty turn sequence one of whose turns has [None]
    for parts makes both adapters raise [TypeError] in the message loop:
    no vendor call is made, nothing is logged, nothing is yielded. *)
Theorem turn_without_parts_raises
        (json_loads : string -> option json)
        (self : SambaAdapter) (llm_request : LlmRequest) (c : Turn) :
  In c (contents llm_request) ->
  turn_parts c = None ->
  MultiToolAgent.generate_content_async json_loads (initial self llm_request)
  = (Raise (TypeError "'NoneType' object is not iterable"),
     initial self llm_request) /\
  GreetingAgent.generate_content_async (initial self llm_request)
  = (Raise (TypeError "'NoneType' object is not iterable"),
     initial self llm_request).
Proof.
  intros Hin Hnone.
  assert (Hm : messages_of (contents llm_request)
               = inl (TypeError "'NoneType' object is not iterable")).
  { unfold messages_of.
    destruct (all_have_parts (contents llm_request)) eqn:E; [|reflexivity].
    apply all_have_parts_Forall in E. rewrite Forall_forall in E.
    now destruct (E c Hin). }
  rewrite generate_content_async_paths, greeting_paths.
  unfold prepared_args. rewrite Hm.
  destruct (contents llm_request) as [|c' cs]; [destruct Hin|]. now split.
Qed.

Lemma turn_without_parts_raises_witness :
  outcome (GreetingAgent.generate_content_async
             (initial (Sample.adapter (inr Sample.completion))
                      Sample.request_with_bare_turn))
  = Raise (TypeError "'NoneType' object is not iterable").
Proof.
  destruct (turn_without_parts_raises JsonLite.json_loads
              (Sample.adapter (inr Sample.completion))
              Sample.request_with_bare_turn Sample.bare_turn)
    as (_ & Hg).
  - right. left. reflexivity.
  - reflexivity.
  - now rewrite Hg.
Defined.

Lemma convert_tools_convertible (ts : list Tool) :
  Forall convertible ts ->
  exists entries,
    convert_tools ts = inr entries /\
    Forall2 (fun t entry =>
               exists d rest p,
                 function_declarations t = Some (d :: rest) /\
                 fd_parameters d = Some (WithToDict p) /\
                 entry = {| at_type := "function";
                            at_function := {| af_name := fd_name d;
                                              af_description := fd_description d;
                                              af_parameters := p |} |})
            ts entries.
Proof.
  induction 1 as [|t ts Ht Hts (entries & Hc & Hf)]; simpl.
  - exists []. split; [reflexivity | constructor].
  - destruct Ht as (d & rest & p & Hd & Hp).
    unfold convert_tool. rewrite Hd, Hp, Hc.
    eexists. split; [reflexivity|]. constructor; [|exact Hf].
    now exists d, rest, p.
Qed.

(** [multi_tool_agent], on a request object that carries a tools list all
    of whose tools convert (a first declaration whose parameters object has
    a [to_dict] method): the one vendor call has a tool list and the tool
    choice "auto" when the list is not empty, and neither of them when it
    is empty; the tool list has one entry per tool, in order, of type
    "function" with the name, the description and the [to_dict()] of the
    parameters of the tool's first declaration. *)
Theorem converted_tools_reach_the_call
        (json_loads : string -> option json)
        (self : SambaAdapter) (llm_request : LlmRequest) (ts : list Tool) :
  contents llm_request <> [] ->
  Forall has_parts (contents llm_request) ->
  tools llm_request = Have ts ->
  Forall convertible ts ->
  exists args,
    vendor_calls
      (w_trace (final (MultiToolAgent.generate_content_async json_loads
                         (initial self llm_request)))) = [args] /\
    ((ts = [] /\ ca_tools args = None /\ ca_tool_choice args = None) \/
     (ts <> [] /\ ca_tool_choice args = Some "auto" /\
      exists entries,
        ca_tools args = Some entries /\
        Forall2 (fun t entry =>
                   exists d rest p,
                     function_declarations t = Some (d :: rest) /\
                     fd_parameters d = Some (WithToDict p) /\
                     entry = {| at_type := "function";
                                at_function := {| af_name := fd_name d;
                                                  af_description := fd_description d;
                                                  af_parameters := p |} |})
                ts entries)).
Proof.
  intros Hc Hparts Htools Hall.
  destruct (convert_tools_convertible ts Hall) as (entries & Hconv & Hf).
  exists (MultiToolAgent.call_samba self
            (map message_of (contents llm_request)) entries).
  split.
  - rewrite generate_content_async_paths.
    destruct (contents llm_request) as [|c cs] eqn:Ec; [congruence|].
    unfold prepared_args. rewrite Ec, (messages_of_with_parts _ Hparts).
    unfold api_tools_of. rewrite Htools, Hconv.
    destruct (chat_completions_create _ _) as [e|completion].
    + reflexivity.
    + unfold final, after. cbn [snd w_trace initial].
      now destruct (success_trace_observed json_loads
                      (MultiToolAgent.call_samba self
                         (map message_of (c :: cs)) entries)
                      completion) as (H1 & _).
  - unfold MultiToolAgent.call_samba.
    destruct Hf as [|t entry ts' entries' Hhead Htail]; simpl.
    + left. now repeat split.
    + right. split; [discriminate|]. split; [reflexivity|].
      eexists. split; [reflexivity|]. now constructor.
Qed.

Lemma converted_tools_reach_the_call_witness :
  exists args,
    vendor_calls
      (w_trace (final (MultiToolAgent.generate_content_async JsonLite.json_loads
                         (initial (Sample.adapter (inr Sample.completion))
                                  Sample.request_with_tool)))) = [args] /\
    ca_tool_choice args = Some "auto".
Proof.
  destruct (converted_tools_reach_the_call JsonLite.json_loads
              (Sample.adapter (inr Sample.completion)) Sample.request_with_tool
              [Sample.weather_tool])
    as (args & Hcalls & [(Hnil & _)|(_ & Hauto & _)]).
  - discriminate.
  - repeat constructor; discriminate.
  - reflexivity.
  - repeat constructor. unfold convertible. simpl. now repeat eexists.
  - discriminate Hnil.
  - exists args. split; [exact Hcalls | exact Hauto].
Defined.
